(** * PyStream: the operator core of [pstream/_async/functors.py]

    A shallow embedding of the lazy-sequence operators and of their two
    dispatchers.  A Python generator is modelled by the ordered trace of
    the events it performs when it is called and then consumed to
    exhaustion: pulls on its source, applications of the user function,
    yields, and the exception that ends it.  What a consumer that stops
    early observes is a prefix of that trace, so laziness and the order
    of effects are statements about positions in the trace. *)

From Stdlib Require Import List ZArith Lia Bool Arith String Ascii.
From Stdlib Require Import Permutation Sorted.
Import ListNotations.

Set Implicit Arguments.

(** ** Exceptions raised by the module and by the builtins it binds *)

Inductive exn : Type :=
| TypeError          (* coerce, iter() on a non-iterable, an unsupported [<] *)
| ValueError         (* itertools.islice with a step below 1 *)
| ZeroDivisionError. (* [c % step] with [step = 0] *)

(** ** Values offered as streams

    [rest] is what an iterator has not handed out yet; [elems] is the
    content of a container, which every [__iter__] call walks afresh. *)

Inductive pyobj (T : Type) : Type :=
| PyIterator (rest : list T)        (* __iter__ (returns self) and __next__ *)
| PyIterable (elems : list T)       (* __iter__ only: list, tuple, range *)
| PyAsyncIterator (rest : list T)   (* __aiter__ (returns self) and __anext__ *)
| PyAsyncIterable (elems : list T)  (* __aiter__ only *)
| PyOther.                          (* none of the four: an int, None *)

Arguments PyOther {T}.

(** User functions: [def f] and [async def f]. *)

Inductive pyfun (A B : Type) : Type :=
| Def (f : A -> B)
| AsyncDef (f : A -> B).

Definition iscoroutinefunction {A B} (f : pyfun A B) : bool :=
  match f with Def _ => false | AsyncDef _ => true end.

(** The value [f(x)] of a plain function, or of [await f(x)] for a
    coroutine function. *)
Definition run {A B} (f : pyfun A B) (x : A) : B :=
  match f with Def g => g x | AsyncDef g => g x end.

(** ** Events *)

Inductive event (T V : Type) : Type :=
| Returned                        (* the operator call handed back its result *)
| Next (i : nat) (r : option T)   (* next(streams[i]); None is StopIteration *)
| ANext (i : nat) (r : option T)  (* await streams[i].__anext__() *)
| Call (x : T)                    (* f(x) *)
| AwaitCall (x : T)               (* await f(x) *)
| Yield (v : V)
| Raise (e : exn).

Arguments Returned {T V}.
Arguments Next {T V}.
Arguments ANext {T V}.
Arguments Call {T V}.
Arguments AwaitCall {T V}.
Arguments Yield {T V}.
Arguments Raise {T V}.

Definition trace (T V : Type) : Type := list (event T V).

Section Observations.
Context {T V : Type}.

(** The output sequence. *)
Fixpoint yields (tr : trace T V) : list V :=
  match tr with
  | [] => []
  | Yield v :: tr' => v :: yields tr'
  | _ :: tr' => yields tr'
  end.

(** The arguments the user function was applied to, in order. *)
Fixpoint calls (tr : trace T V) : list T :=
  match tr with
  | [] => []
  | Call x :: tr' => x :: calls tr'
  | AwaitCall x :: tr' => x :: calls tr'
  | _ :: tr' => calls tr'
  end.

(** The elements obtained from the sources, in order. *)
Fixpoint pulled (tr : trace T V) : list T :=
  match tr with
  | [] => []
  | Next _ (Some x) :: tr' => x :: pulled tr'
  | ANext _ (Some x) :: tr' => x :: pulled tr'
  | _ :: tr' => pulled tr'
  end.

(** The exception that ended the run, if any. *)
Fixpoint raised (tr : trace T V) : option exn :=
  match tr with
  | [] => None
  | Raise e :: _ => Some e
  | _ :: tr' => raised tr'
  end.

(** The events of the call itself, up to the point where it returns or
    raises; what follows [Returned] happens on demand. *)
Fixpoint at_call (tr : trace T V) : trace T V :=
  match tr with
  | [] => []
  | Returned :: _ => []
  | e :: tr' => e :: at_call tr'
  end.

Definition is_yield (e : event T V) : bool :=
  match e with Yield _ => true | _ => false end.

Definition is_pull (e : event T V) : bool :=
  match e with Next _ _ | ANext _ _ => true | _ => false end.

Definition is_call (e : event T V) : bool :=
  match e with Call _ | AwaitCall _ => true | _ => false end.

(** [finish tr e]: a generator body that stopped with [e]. *)
Definition finish (tr : trace T V) (e : option exn) : trace T V :=
  tr ++ match e with Some e => [Raise e] | None => [] end.
End Observations.

(** ** UTILS: classification and coercion *)

Section Utils.
Context {T : Type}.

(** [isinstance(stream, C)] for the four [collections.abc] classes. *)
Definition isinstance_AsyncIterator (s : pyobj T) : bool :=
  match s with PyAsyncIterator _ => true | _ => false end.
Definition isinstance_AsyncIterable (s : pyobj T) : bool :=
  match s with PyAsyncIterator _ | PyAsyncIterable _ => true | _ => false end.
Definition isinstance_Iterator (s : pyobj T) : bool :=
  match s with PyIterator _ => true | _ => false end.
Definition isinstance_Iterable (s : pyobj T) : bool :=
  match s with PyIterator _ | PyIterable _ => true | _ => false end.

(** [stream.__aiter__()] and [stream.__iter__()], called by [coerce]
    only on values that have the method. *)
Definition dunder_aiter (s : pyobj T) : pyobj T :=
  match s with PyAsyncIterable elems => PyAsyncIterator elems | _ => s end.
Definition dunder_iter (s : pyobj T) : pyobj T :=
  match s with PyIterable elems => PyIterator elems | _ => s end.

Definition is_async_stream (stream : pyobj T) : bool :=
  isinstance_AsyncIterator stream || isinstance_AsyncIterable stream.

Definition coerce (stream : pyobj T) : exn + pyobj T :=
  if isinstance_AsyncIterator stream then inr stream
  else if isinstance_AsyncIterable stream then inr (dunder_aiter stream)
  else if isinstance_Iterator stream then inr stream
  else if isinstance_Iterable stream then inr (dunder_iter stream)
  else inl TypeError.

(** [factory(s, a)]: the dispatcher of the operators without a user
    function.  [args] stands for [*args]. *)
Definition factory {A V} (s a : pyobj T -> A -> trace T V)
    (stream : pyobj T) (args : A) : trace T V :=
  match coerce stream with
  | inl e => [Raise e]
  | inr stream =>
      if is_async_stream stream then a stream args else s stream args
  end.

(** [higher_order_factory(ss, sa, _as, aa)]: the dispatcher of the
    operators with a user function.  [stream] is handed on as it came. *)
Definition higher_order_factory {A B V}
    (ss sa _as aa : pyfun A B -> pyobj T -> trace T V)
    (f : pyfun A B) (stream : pyobj T) : trace T V :=
  let f_is_async := iscoroutinefunction f in
  let stream_is_async := is_async_stream stream in
  if negb f_is_async && negb stream_is_async then ss f stream
  else if negb f_is_async && stream_is_async then sa f stream
  else if f_is_async && negb stream_is_async then _as f stream
  else if f_is_async && stream_is_async then aa f stream
  else [Raise TypeError].
End Utils.

(** ** The [for] and [async for] statements *)

Inductive ctrl : Type :=
| Continue            (* fell off the end of the body, or [continue] *)
| Break
| Throw (e : exn).

Section ForStatement.
Context {T V L : Type}.

(** What the statement asks of the stream before its first iteration:
    [iter(stream)] for [for], [stream.__aiter__()] for [async for].  An
    iterator answers with itself, so the loop advances the very object
    the generator holds; a container answers with a new iterator whose
    position is lost when the loop ends. *)
Definition iter_ (s : pyobj T) : exn + (list T * (list T -> pyobj T)) :=
  match s with
  | PyIterator rest => inr (rest, @PyIterator T)
  | PyIterable elems => inr (elems, fun _ => PyIterable elems)
  | _ => inl TypeError
  end.

Definition aiter_ (s : pyobj T) : exn + (list T * (list T -> pyobj T)) :=
  match s with
  | PyAsyncIterator rest => inr (rest, @PyAsyncIterator T)
  | PyAsyncIterable elems => inr (elems, fun _ => PyAsyncIterable elems)
  | _ => inl TypeError
  end.

Variable pull : option T -> event T V.
Variable body : T -> L -> trace T V * L * ctrl.

(** The iterations over a cursor holding [rest], with the loop's local
    variables [st]; returns the events, the locals, what the cursor
    still holds, and the exception that escaped the body. *)
Fixpoint for_items (rest : list T) (st : L)
    : trace T V * L * list T * option exn :=
  match rest with
  | [] => ([pull None], st, [], None)
  | x :: rest' =>
      let '(ev, st', c) := body x st in
      match c with
      | Continue =>
          let '(tr, st'', r, e) := for_items rest' st' in
          (pull (Some x) :: ev ++ tr, st'', r, e)
      | Break => (pull (Some x) :: ev, st', rest', None)
      | Throw e => (pull (Some x) :: ev, st', rest', Some e)
      end
  end.

Definition for_stmt (open : pyobj T -> exn + (list T * (list T -> pyobj T)))
    (s : pyobj T) (st : L) : trace T V * L * pyobj T * option exn :=
  match open s with
  | inl e => ([], st, s, Some e)
  | inr (rest, close) =>
      let '(tr, st', rest', e) := for_items rest st in
      (tr, st', close rest', e)
  end.
End ForStatement.

(** [for x in stream] and [async for x in stream]. *)
Definition for_in {T V L} (body : T -> L -> trace T V * L * ctrl) :=
  for_stmt (Next 0) body iter_.
Definition async_for_in {T V L} (body : T -> L -> trace T V * L * ctrl) :=
  for_stmt (ANext 0) body aiter_.

(** Statements in sequence: the second runs only if the first raised
    nothing. *)
Definition seq_stmt {T V L}
    (a b : pyobj T -> L -> trace T V * L * pyobj T * option exn)
    (s : pyobj T) (st : L) : trace T V * L * pyobj T * option exn :=
  let '(tr, st', s', e) := a s st in
  match e with
  | Some _ => (tr, st', s', e)
  | None =>
      let '(tr2, st'', s'', e2) := b s' st' in (tr ++ tr2, st'', s'', e2)
  end.

(** A generator function: calling it returns at once, its body runs on
    demand. *)
Definition generator {T V L} (b : trace T V * L * pyobj T * option exn)
    : trace T V :=
  let '(tr, _, _, e) := b in Returned :: finish tr e.

(** A builtin iterator type ([map], [filter], [itertools.dropwhile],
    [itertools.takewhile]): its constructor calls [iter()] on the argument
    and keeps that one iterator; each [__next__] runs the loop up to the
    next element handed out. *)
Definition builtin {T V L} (body : T -> L -> trace T V * L * ctrl)
    (st : L) (s : pyobj T) : trace T V :=
  match iter_ s with
  | inl e => [Raise e]
  | inr (rest, _) =>
      let '(tr, _, _, e) := for_items (Next 0) body rest st in
      Returned :: finish tr e
  end.

(** ** MAP *)

Section Map.
Context {T U : Type}.
Variable call : T -> event T U.

Definition map_body (f : pyfun T U) (x : T) (st : unit)
    : trace T U * unit * ctrl :=
  ([call x; Yield (run f x)], st, Continue).
End Map.

Definition ss_map {T U} (f : pyfun T U) := builtin (map_body Call f) tt.
Definition sa_map {T U} (f : pyfun T U) (stream : pyobj T) :=
  generator (async_for_in (map_body Call f) stream tt).
Definition as_map {T U} (f : pyfun T U) (stream : pyobj T) :=
  generator (for_in (map_body AwaitCall f) stream tt).
Definition aa_map {T U} (f : pyfun T U) (stream : pyobj T) :=
  generator (async_for_in (map_body AwaitCall f) stream tt).

(** ** FILTER and FILTER_FALSE *)

Section Filter.
Context {T : Type}.
Variable call : T -> event T T.

(** [if f(x): yield x] *)
Definition filter_body (f : pyfun T bool) (x : T) (st : unit)
    : trace T T * unit * ctrl :=
  (call x :: (if run f x then [Yield x] else []), st, Continue).

(** [if not f(x): yield x] *)
Definition filter_false_body (f : pyfun T bool) (x : T) (st : unit)
    : trace T T * unit * ctrl :=
  (call x :: (if negb (run f x) then [Yield x] else []), st, Continue).
End Filter.

Definition ss_filter {T} (f : pyfun T bool) := builtin (filter_body Call f) tt.
Definition sa_filter {T} (f : pyfun T bool) (stream : pyobj T) :=
  generator (async_for_in (filter_body Call f) stream tt).
Definition as_filter {T} (f : pyfun T bool) (stream : pyobj T) :=
  generator (for_in (filter_body AwaitCall f) stream tt).
Definition aa_filter {T} (f : pyfun T bool) (stream : pyobj T) :=
  generator (async_for_in (filter_body AwaitCall f) stream tt).

Definition ss_filter_false {T} (f : pyfun T bool) (stream : pyobj T) :=
  ss_filter (Def (fun x => negb (run f x))) stream.
Definition sa_filter_false {T} (f : pyfun T bool) (stream : pyobj T) :=
  generator (async_for_in (filter_false_body Call f) stream tt).
Definition as_filter_false {T} (f : pyfun T bool) (stream : pyobj T) :=
  generator (for_in (filter_false_body AwaitCall f) stream tt).
Definition aa_filter_false {T} (f : pyfun T bool) (stream : pyobj T) :=
  generator (async_for_in (filter_false_body AwaitCall f) stream tt).

(** ** GROUP_BY *)

Section GroupBy.
Context {T K : Type}.
Variable key_eq_dec : forall a b : K, {a = b} + {a <> b}.

(** [groups[k].append(x)] on a [defaultdict(list)]: a dict keeps its
    keys in the order of their first insertion. *)
Fixpoint groups_append (k : K) (x : T) (groups : list (K * list T))
    : list (K * list T) :=
  match groups with
  | [] => [(k, [x])]
  | (k', g) :: groups' =>
      if key_eq_dec k k' then (k', g ++ [x]) :: groups'
      else (k', g) :: groups_append k x groups'
  end.

Variable call : T -> event T (list T).

Definition group_by_body (f : pyfun T K) (x : T) (groups : list (K * list T))
    : trace T (list T) * list (K * list T) * ctrl :=
  ([call x], groups_append (run f x) x groups, Continue).

(** [for group in groups.values(): yield group] *)
Definition yield_groups (s : pyobj T) (groups : list (K * list T))
    : trace T (list T) * list (K * list T) * pyobj T * option exn :=
  (List.map (fun g => Yield (snd g)) groups, groups, s, None).
End GroupBy.

Section GroupByImpl.
Context {T K : Type}.
Variable key_eq_dec : forall a b : K, {a = b} + {a <> b}.

Definition ss_group_by (f : pyfun T K) (stream : pyobj T) :=
  generator (seq_stmt (for_in (group_by_body key_eq_dec Call f))
                      (@yield_groups T K) stream []).
Definition sa_group_by (f : pyfun T K) (stream : pyobj T) :=
  generator (seq_stmt (async_for_in (group_by_body key_eq_dec Call f))
                      (@yield_groups T K) stream []).
Definition as_group_by (f : pyfun T K) (stream : pyobj T) :=
  generator (seq_stmt (for_in (group_by_body key_eq_dec AwaitCall f))
                      (@yield_groups T K) stream []).
Definition aa_group_by (f : pyfun T K) (stream : pyobj T) :=
  generator (seq_stmt (async_for_in (group_by_body key_eq_dec AwaitCall f))
                      (@yield_groups T K) stream []).
End GroupByImpl.

(** ** INSPECT *)

Definition inspect_body {T B} (call : T -> event T T) (f : pyfun T B)
    (x : T) (st : unit) : trace T T * unit * ctrl :=
  ([call x; Yield x], st, Continue).

Definition ss_inspect {T B} (f : pyfun T B) (stream : pyobj T) :=
  generator (for_in (inspect_body Call f) stream tt).
Definition sa_inspect {T B} (f : pyfun T B) (stream : pyobj T) :=
  generator (async_for_in (inspect_body Call f) stream tt).
Definition as_inspect {T B} (f : pyfun T B) (stream : pyobj T) :=
  generator (for_in (inspect_body AwaitCall f) stream tt).
Definition aa_inspect {T B} (f : pyfun T B) (stream : pyobj T) :=
  generator (async_for_in (inspect_body AwaitCall f) stream tt).

(** ** SKIP_WHILE *)

Section SkipWhile.
Context {T : Type}.

(** [itertools.dropwhile]: one loop and a [start] flag, set by the first
    element the predicate rejects; once set the predicate is not
    called. *)
Definition dropwhile_body (f : pyfun T bool) (x : T) (start : bool)
    : trace T T * bool * ctrl :=
  if start then ([Yield x], start, Continue)
  else if run f x then ([Call x], false, Continue)
  else ([Call x; Yield x], true, Continue).

Variable call : T -> event T T.

(** [if not f(x): yield x; break] *)
Definition skip_while_body (f : pyfun T bool) (x : T) (st : unit)
    : trace T T * unit * ctrl :=
  if negb (run f x) then ([call x; Yield x], st, Break)
  else ([call x], st, Continue).

(** [yield x] *)
Definition forward_body (x : T) (st : unit) : trace T T * unit * ctrl :=
  ([Yield x], st, Continue).
End SkipWhile.

Definition ss_skip_while {T} (f : pyfun T bool) :=
  builtin (dropwhile_body f) false.
Definition sa_skip_while {T} (f : pyfun T bool) (stream : pyobj T) :=
  generator (seq_stmt (async_for_in (skip_while_body Call f))
                      (async_for_in (@forward_body T)) stream tt).
Definition as_skip_while {T} (f : pyfun T bool) (stream : pyobj T) :=
  generator (seq_stmt (for_in (skip_while_body AwaitCall f))
                      (for_in (@forward_body T)) stream tt).
Definition aa_skip_while {T} (f : pyfun T bool) (stream : pyobj T) :=
  generator (seq_stmt (async_for_in (skip_while_body AwaitCall f))
                      (async_for_in (@forward_body T)) stream tt).

(** ** TAKE_WHILE *)

(** [if f(x): yield x else: break]; [itertools.takewhile] does the same
    with a [stop] flag in place of [break]. *)
Definition take_while_body {T} (call : T -> event T T) (f : pyfun T bool)
    (x : T) (st : unit) : trace T T * unit * ctrl :=
  if run f x then ([call x; Yield x], st, Continue)
  else ([call x], st, Break).

Definition ss_take_while {T} (f : pyfun T bool) :=
  builtin (take_while_body Call f) tt.
Definition sa_take_while {T} (f : pyfun T bool) (stream : pyobj T) :=
  generator (async_for_in (take_while_body Call f) stream tt).
Definition as_take_while {T} (f : pyfun T bool) (stream : pyobj T) :=
  generator (for_in (take_while_body AwaitCall f) stream tt).
Definition aa_take_while {T} (f : pyfun T bool) (stream : pyobj T) :=
  generator (async_for_in (take_while_body AwaitCall f) stream tt).

(** ** DISTINCT_WITH *)

Section DistinctWith.
Context {T K : Type}.
Variable key_eq_dec : forall a b : K, {a = b} + {a <> b}.

(** [h in seen] *)
Definition seen_mem (h : K) (seen : list K) : bool :=
  if in_dec key_eq_dec h seen then true else false.

Variable call : T -> event T T.

Definition distinct_with_body (f : pyfun T K) (x : T) (seen : list K)
    : trace T T * list K * ctrl :=
  let h := run f x in
  if seen_mem h seen then ([call x], seen, Continue)
  else ([call x; Yield x], h :: seen, Continue).
End DistinctWith.

Section DistinctWithImpl.
Context {T K : Type}.
Variable key_eq_dec : forall a b : K, {a = b} + {a <> b}.

Definition ss_distinct_with (f : pyfun T K) (stream : pyobj T) :=
  generator (for_in (distinct_with_body key_eq_dec Call f) stream []).
Definition sa_distinct_with (f : pyfun T K) (stream : pyobj T) :=
  generator (async_for_in (distinct_with_body key_eq_dec Call f) stream []).
Definition as_distinct_with (f : pyfun T K) (stream : pyobj T) :=
  generator (for_in (distinct_with_body key_eq_dec AwaitCall f) stream []).
Definition aa_distinct_with (f : pyfun T K) (stream : pyobj T) :=
  generator (async_for_in (distinct_with_body key_eq_dec AwaitCall f) stream []).
End DistinctWithImpl.

(** ** FOR_EACH: a bare [yield] hands out [None]. *)

Definition for_each_body {T B} (call : T -> event T unit) (f : pyfun T B)
    (x : T) (st : unit) : trace T unit * unit * ctrl :=
  ([call x; Yield tt], st, Continue).

Definition ss_for_each {T B} (f : pyfun T B) (stream : pyobj T) :=
  generator (for_in (for_each_body Call f) stream tt).
Definition as_for_each {T B} (f : pyfun T B) (stream : pyobj T) :=
  generator (for_in (for_each_body AwaitCall f) stream tt).
Definition sa_for_each {T B} (f : pyfun T B) (stream : pyobj T) :=
  generator (async_for_in (for_each_body Call f) stream tt).
Definition aa_for_each {T B} (f : pyfun T B) (stream : pyobj T) :=
  generator (async_for_in (for_each_body AwaitCall f) stream tt).

(** ** [next(stream)] and [await stream.__anext__()] *)

Section NextCalls.
Context {T : Type}.

(** Only an iterator has [__next__]; an exhausted iterator stays
    exhausted. *)
Definition next_ (s : pyobj T) : exn + (option T * pyobj T) :=
  match s with
  | PyIterator [] => inr (None, s)
  | PyIterator (x :: rest) => inr (Some x, PyIterator rest)
  | _ => inl TypeError
  end.

Definition anext_ (s : pyobj T) : exn + (option T * pyobj T) :=
  match s with
  | PyAsyncIterator [] => inr (None, s)
  | PyAsyncIterator (x :: rest) => inr (Some x, PyAsyncIterator rest)
  | _ => inl TypeError
  end.

Context {V : Type}.
Variable pull : option T -> event T V.
Variable get : pyobj T -> exn + (option T * pyobj T).
Variable on_item : T -> trace T V.

(** [for _ in range(n): try: ... next(stream) ... except Stop: break] *)
Fixpoint range_next (n : nat) (s : pyobj T) (st : unit)
    : trace T V * unit * pyobj T * option exn :=
  match n with
  | O => ([], st, s, None)
  | S n' =>
      match get s with
      | inl e => ([], st, s, Some e)
      | inr (None, s') => ([pull None], st, s', None)
      | inr (Some x, s') =>
          let '(tr, st', s'', e) := range_next n' s' st in
          (pull (Some x) :: on_item x ++ tr, st', s'', e)
      end
  end.
End NextCalls.

(** [range(limit)] runs [limit] times, and not at all for [limit <= 0]. *)
Definition range_len (limit : Z) : nat := Z.to_nat limit.

(** ** SKIP and TAKE *)

Definition s_skip {T} (stream : pyobj T) (limit : Z) : trace T T :=
  generator
    (seq_stmt (range_next (Next 0) next_ (fun _ => []) (range_len limit))
              (for_in (@forward_body T)) stream tt).

Definition a_skip {T} (stream : pyobj T) (limit : Z) : trace T T :=
  generator
    (seq_stmt (range_next (ANext 0) anext_ (fun _ => []) (range_len limit))
              (async_for_in (@forward_body T)) stream tt).

Definition s_take {T} (stream : pyobj T) (limit : Z) : trace T T :=
  generator
    (range_next (Next 0) next_ (fun x => [Yield x]) (range_len limit) stream tt).

Definition a_take {T} (stream : pyobj T) (limit : Z) : trace T T :=
  generator
    (range_next (ANext 0) anext_ (fun x => [Yield x]) (range_len limit) stream tt).

(** ** POOL *)

Section Pool.
Context {T : Type}.

(** [p.append(x); if len(p) == size: yield p; p = list()] *)
Definition pool_body (size : Z) (x : T) (p : list T)
    : trace T (list T) * list T * ctrl :=
  let p := p ++ [x] in
  if (Z.of_nat (List.length p) =? size)%Z then ([Yield p], [], Continue)
  else ([], p, Continue).

(** [if len(p) != 0: yield p] *)
Definition pool_rest (s : pyobj T) (p : list T)
    : trace T (list T) * list T * pyobj T * option exn :=
  ((if (List.length p =? 0)%nat then [] else [Yield p]), p, s, None).

Definition s_pool (stream : pyobj T) (size : Z) : trace T (list T) :=
  generator (seq_stmt (for_in (pool_body size)) pool_rest stream []).

Definition a_pool (stream : pyobj T) (size : Z) : trace T (list T) :=
  generator (seq_stmt (async_for_in (pool_body size)) pool_rest stream []).
End Pool.

(** ** STEP_BY *)

Section StepBy.
Context {T : Type}.

(** [itertools.islice(stream, 0, None, step)]: the constructor rejects a
    step below 1, then takes [iter(stream)]; the element at every
    position divisible by [step] is handed out, the others are pulled
    and dropped. *)
Definition islice_body (step : Z) (x : T) (cnt : Z)
    : trace T T * Z * ctrl :=
  if (cnt mod step =? 0)%Z then ([Yield x], (cnt + 1)%Z, Continue)
  else ([], (cnt + 1)%Z, Continue).

Definition s_step_by (stream : pyobj T) (step : Z) : trace T T :=
  if (step <? 1)%Z then [Raise ValueError]
  else builtin (islice_body step) 0%Z stream.

(** [if c % step == 0: yield x] then [c += 1]; [%] by zero raises. *)
Definition step_by_body (step : Z) (x : T) (c : Z) : trace T T * Z * ctrl :=
  if (step =? 0)%Z then ([], c, Throw ZeroDivisionError)
  else if (c mod step =? 0)%Z then ([Yield x], (c + 1)%Z, Continue)
  else ([], (c + 1)%Z, Continue).

Definition a_step_by (stream : pyobj T) (step : Z) : trace T T :=
  generator (async_for_in (step_by_body step) stream 0%Z).
End StepBy.

(** ** SORT *)

Section Sort.
Context {T : Type}.

(** [x < y]; [None] when the pair does not support it (TypeError). *)
Variable lt : T -> T -> option bool.

(** The builtin [sorted] on the materialised list: a stable sort that
    asks only [<] and stops at the first comparison that raises.  For
    mutually comparable elements every stable sort returns the same
    list; insertion keeps the model short. *)
Fixpoint insort (x : T) (l : list T) : option (list T) :=
  match l with
  | [] => Some [x]
  | y :: l' =>
      match lt y x with
      | None => None
      | Some true => option_map (cons y) (insort x l')
      | Some false => Some (x :: y :: l')
      end
  end.

Fixpoint sorted (l : list T) : option (list T) :=
  match l with
  | [] => Some []
  | x :: l' =>
      match sorted l' with
      | None => None
      | Some s => insort x s
      end
  end.

(** [list(stream)] and [[x async for x in stream]] *)
Definition collect_body (x : T) (acc : list T) : trace T T * list T * ctrl :=
  ([], acc ++ [x], Continue).

(** [for x in sorted(acc): yield x] *)
Definition yield_sorted (s : pyobj T) (acc : list T)
    : trace T T * list T * pyobj T * option exn :=
  match sorted acc with
  | None => ([], acc, s, Some TypeError)
  | Some l => (List.map (fun x => Yield x) l, acc, s, None)
  end.

(** [s_sort = sorted]: the call itself drains and sorts, and returns a
    list. *)
Definition s_sort (stream : pyobj T) (_ : unit) : trace T T :=
  match iter_ stream with
  | inl e => [Raise e]
  | inr (rest, _) =>
      let '(tr, acc, _, _) := for_items (Next 0) collect_body rest [] in
      match sorted acc with
      | None => tr ++ [Raise TypeError]
      | Some l => tr ++ Returned :: List.map (fun x => Yield x) l
      end
  end.

Definition a_sort (stream : pyobj T) (_ : unit) : trace T T :=
  generator (seq_stmt (async_for_in collect_body) yield_sorted stream []).
End Sort.

(** ** ZIP *)

Section Zip.
Context {T : Type}.

(** [[coerce(stream) for stream in streams]] *)
Fixpoint coerce_all (streams : list (pyobj T)) : exn + list (pyobj T) :=
  match streams with
  | [] => inr []
  | s :: ss =>
      match coerce s with
      | inl e => inl e
      | inr s' =>
          match coerce_all ss with
          | inl e => inl e
          | inr ss' => inr (s' :: ss')
          end
      end
  end.

Inductive round : Type :=
| Group (g : list T)   (* the inner loop ran through: [tuple(group)] *)
| Stop                 (* StopIteration or StopAsyncIteration escaped *)
| Fail (e : exn).

(** [await stream.__anext__() if is_async_stream(stream) else next(stream)] *)
Definition zip_pull (i : nat) (s : pyobj T)
    : exn + (event T (list T) * option T * pyobj T) :=
  if is_async_stream s then
    match anext_ s with
    | inl e => inl e
    | inr (r, s') => inr (ANext i r, r, s')
    end
  else
    match next_ s with
    | inl e => inl e
    | inr (r, s') => inr (Next i r, r, s')
    end.

(** One pass of [for stream in streams: group.append(...)], from the
    [i]-th stream on. *)
Fixpoint zip_round (i : nat) (streams : list (pyobj T)) (group : list T)
    : trace T (list T) * round * list (pyobj T) :=
  match streams with
  | [] => ([], Group group, [])
  | s :: ss =>
      match zip_pull i s with
      | inl e => ([], Fail e, s :: ss)
      | inr (ev, None, s') => ([ev], Stop, s' :: ss)
      | inr (ev, Some x, s') =>
          let '(tr, r, ss') := zip_round (S i) ss (group ++ [x]) in
          (ev :: tr, r, s' :: ss')
      end
  end.

(** [while True]: one round per fuel unit; [None] when the fuel ran out
    before the loop was left. *)
Fixpoint zip_loop (fuel : nat) (streams : list (pyobj T))
    : option (trace T (list T) * list (pyobj T)) :=
  match fuel with
  | O => None
  | S fuel' =>
      match zip_round 0 streams [] with
      | (tr, Group g, streams') =>
          match zip_loop fuel' streams' with
          | None => None
          | Some (tr', final) => Some (tr ++ Yield g :: tr', final)
          end
      | (tr, Stop, streams') => Some (tr, streams')
      | (tr, Fail e, streams') => Some (tr ++ [Raise e], streams')
      end
  end.

(** The async generator [zip], with the cursors it leaves
    behind. *)
Definition zip_run (fuel : nat) (streams : list (pyobj T))
    : option (trace T (list T) * list (pyobj T)) :=
  match coerce_all streams with
  | inl e => Some ([Returned; Raise e], streams)
  | inr streams' =>
      match zip_loop fuel streams' with
      | None => None
      | Some (tr, final) => Some (Returned :: tr, final)
      end
  end.
End Zip.

(** ** DISTINCT *)

Section Distinct.
Context {T : Type}.
Variable eq_dec : forall a b : T, {a = b} + {a <> b}.

(** [if x in seen: continue]; [seen.add(x)]; [yield x] *)
Definition distinct_body (x : T) (seen : list T) : trace T T * list T * ctrl :=
  if seen_mem eq_dec x seen then ([], seen, Continue)
  else ([Yield x], x :: seen, Continue).

Definition s_distinct (stream : pyobj T) (_ : unit) : trace T T :=
  generator (for_in distinct_body stream []).

Definition a_distinct (stream : pyobj T) (_ : unit) : trace T T :=
  generator (async_for_in distinct_body stream []).
End Distinct.

(** ** REVERSE *)

Section Reverse.
Context {T : Type}.

(** [for x in reversed(acc): yield x] *)
Definition yield_reversed (s : pyobj T) (acc : list T)
    : trace T T * list T * pyobj T * option exn :=
  (List.map (fun x => Yield x) (rev acc), acc, s, None).

Definition s_reverse (stream : pyobj T) (_ : unit) : trace T T :=
  generator (seq_stmt (for_in (@collect_body T)) yield_reversed stream []).

Definition a_reverse (stream : pyobj T) (_ : unit) : trace T T :=
  generator (seq_stmt (async_for_in (@collect_body T)) yield_reversed stream []).
End Reverse.

(** ** ENUMERATE *)

(** Modelled from the spec: [Stream.Enumeration], declared in
    [_sync/stream.py]; an immutable pair of an index and a value. *)
Record Enumeration (T : Type) : Type :=
  { index : Z; value : T }.

Section Enumerate.
Context {T : Type}.

(** [yield Enumeration(count, x)] then [count += 1].  In [s_enumerate]
    the builtin [enumerate] counts the same way and hands its pairs to
    [map]; that name is the module's own dispatcher by the time of the
    call, which sends a plain lambda over an iterator to the builtin
    [map], so the whole is one lazy builtin pipeline. *)
Definition enumerate_body (x : T) (count : Z)
    : trace T (Enumeration T) * Z * ctrl :=
  ([Yield {| index := count; value := x |}], (count + 1)%Z, Continue).

Definition s_enumerate (stream : pyobj T) (_ : unit)
    : trace T (Enumeration T) :=
  builtin enumerate_body 0%Z stream.

Definition a_enumerate (stream : pyobj T) (_ : unit)
    : trace T (Enumeration T) :=
  generator (async_for_in enumerate_body stream 0%Z).
End Enumerate.

(** ** FLATTEN and CHAIN

    The source holds streams.  The trace records the pulls on it; the
    pulls on the inner streams are of another type and are left out, the
    elements they give are yielded at once. *)

Section Flatten.
Context {T : Type}.

(** The inner loop, [async for x in stream: yield x] or
    [for x in stream: yield x], over a coerced stream. *)
Definition flatten_inner (stream : pyobj T) : list T * option exn :=
  let '(tr, _, _, e) :=
    if is_async_stream stream
    then async_for_in (@forward_body T) stream tt
    else for_in (@forward_body T) stream tt in
  (yields tr, e).

(** [stream = coerce(stream)] and the inner loop. *)
Definition flatten_body (stream : pyobj T) (st : unit)
    : trace (pyobj T) T * unit * ctrl :=
  match coerce stream with
  | inl e => ([], st, Throw e)
  | inr stream =>
      let '(out, e) := flatten_inner stream in
      (List.map (fun x => Yield x) out, st,
       match e with Some e => Throw e | None => Continue end)
  end.

Definition s_flatten (streams : pyobj (pyobj T)) (_ : unit)
    : trace (pyobj T) T :=
  generator (for_in flatten_body streams tt).

Definition a_flatten (streams : pyobj (pyobj T)) (_ : unit)
    : trace (pyobj T) T :=
  generator (async_for_in flatten_body streams tt).
End Flatten.

(** ** FINAL_EXPORT_ALIASES *)

Module pstream.
Definition distinct_with {T K} (key_eq_dec : forall a b : K, {a = b} + {a <> b}) :=
  higher_order_factory
    (@ss_distinct_with T K key_eq_dec) (sa_distinct_with key_eq_dec)
    (as_distinct_with key_eq_dec) (aa_distinct_with key_eq_dec).
Definition filter {T} :=
  higher_order_factory (@ss_filter T) (@sa_filter T) (@as_filter T) (@aa_filter T).
Definition filter_false {T} :=
  higher_order_factory (@ss_filter_false T) (@sa_filter_false T)
                       (@as_filter_false T) (@aa_filter_false T).
Definition for_each {T B} :=
  higher_order_factory (@ss_for_each T B) (@sa_for_each T B)
                       (@as_for_each T B) (@aa_for_each T B).
Definition group_by {T K} (key_eq_dec : forall a b : K, {a = b} + {a <> b}) :=
  higher_order_factory
    (@ss_group_by T K key_eq_dec) (sa_group_by key_eq_dec)
    (as_group_by key_eq_dec) (aa_group_by key_eq_dec).
Definition inspect {T B} :=
  higher_order_factory (@ss_inspect T B) (@sa_inspect T B)
                       (@as_inspect T B) (@aa_inspect T B).
Definition map {T U} :=
  higher_order_factory (@ss_map T U) (@sa_map T U) (@as_map T U) (@aa_map T U).
Definition pool {T} := factory (@s_pool T) (@a_pool T).
Definition skip_while {T} :=
  higher_order_factory (@ss_skip_while T) (@sa_skip_while T)
                       (@as_skip_while T) (@aa_skip_while T).
Definition skip {T} := factory (@s_skip T) (@a_skip T).
Definition sort {T} (lt : T -> T -> option bool) :=
  factory (s_sort lt) (a_sort lt).
Definition step_by {T} := factory (@s_step_by T) (@a_step_by T).
Definition take_while {T} :=
  higher_order_factory (@ss_take_while T) (@sa_take_while T)
                       (@as_take_while T) (@aa_take_while T).
Definition take {T} := factory (@s_take T) (@a_take T).
Definition zip {T} (fuel : nat) (streams : list (pyobj T)) :=
  option_map fst (zip_run fuel streams).
Definition distinct {T} (eq_dec : forall a b : T, {a = b} + {a <> b}) :=
  factory (s_distinct eq_dec) (a_distinct eq_dec).
Definition enumerate {T} := factory (@s_enumerate T) (@a_enumerate T).
Definition flatten {T} := factory (@s_flatten T) (@a_flatten T).
Definition reverse {T} := factory (@s_reverse T) (@a_reverse T).
(** [chain]: an async generator over [flatten(streams)], the
    argument tuple being the source. *)
Definition chain {T} (streams : list (pyobj T)) : trace (pyobj T) T :=
  Returned :: flatten (PyIterable streams) tt.
End pstream.

(** * Properties *)

(** ** Observations distribute over concatenation *)

Section ObservationFacts.
Context {T V : Type}.
Implicit Types tr : trace T V.

Lemma yields_app tr1 tr2 : yields (tr1 ++ tr2) = yields tr1 ++ yields tr2.
Proof.
  induction tr1 as [|e tr1 IH]; simpl; [reflexivity|].
  destruct e; simpl; rewrite ?IH; reflexivity.
Qed.

Lemma calls_app tr1 tr2 : calls (tr1 ++ tr2) = calls tr1 ++ calls tr2.
Proof.
  induction tr1 as [|e tr1 IH]; simpl; [reflexivity|].
  destruct e; simpl; rewrite ?IH; reflexivity.
Qed.

Lemma pulled_app tr1 tr2 : pulled (tr1 ++ tr2) = pulled tr1 ++ pulled tr2.
Proof.
  induction tr1 as [|e tr1 IH]; simpl; [reflexivity|].
  destruct e as [|i [x|]|i [x|]| | | |]; simpl; rewrite ?IH; reflexivity.
Qed.

Lemma raised_app_none tr1 tr2 :
  raised tr1 = None -> raised (tr1 ++ tr2) = raised tr2.
Proof.
  induction tr1 as [|e tr1 IH]; simpl; [reflexivity|].
  destruct e; simpl; auto; discriminate.
Qed.

Lemma yields_map_Yield (vs : list V) :
  yields (List.map (fun v => @Yield T V v) vs) = vs.
Proof. induction vs; simpl; congruence. Qed.

Lemma pulled_map_Yield (vs : list V) :
  pulled (List.map (fun v => @Yield T V v) vs) = [].
Proof. induction vs; simpl; congruence. Qed.

Lemma raised_map_Yield (vs : list V) :
  raised (List.map (fun v => @Yield T V v) vs) = None.
Proof. induction vs; simpl; congruence. Qed.

Lemma yields_finish tr e : yields (finish tr e) = yields tr.
Proof.
  unfold finish. rewrite yields_app. destruct e; simpl; apply app_nil_r.
Qed.
End ObservationFacts.

(** ** Sources of finite content *)

Definition contents {T} (s : pyobj T) : option (list T) :=
  match s with
  | PyIterator l | PyIterable l | PyAsyncIterator l | PyAsyncIterable l => Some l
  | PyOther => None
  end.

(** A pull cursor: what [coerce] hands to an implementation. *)
Definition cursor {T} (s : pyobj T) (l : list T) : Prop :=
  s = PyIterator l \/ s = PyAsyncIterator l.

(** The two ways a loop pulls and the two ways it applies the function. *)
Definition pull_event {T V} (pull : option T -> event T V) : Prop :=
  pull = Next 0 \/ pull = ANext 0.
Definition call_event {T V} (call : T -> event T V) : Prop :=
  call = Call \/ call = AwaitCall.

Lemma pull_event_Next T V : pull_event (@Next T V 0).
Proof. left; reflexivity. Qed.
Lemma pull_event_ANext T V : pull_event (@ANext T V 0).
Proof. right; reflexivity. Qed.
Lemma call_event_Call T V : call_event (@Call T V).
Proof. left; reflexivity. Qed.
Lemma call_event_AwaitCall T V : call_event (@AwaitCall T V).
Proof. right; reflexivity. Qed.

Create HintDb events.
#[local] Hint Resolve pull_event_Next pull_event_ANext
  call_event_Call call_event_AwaitCall : events.

Ltac pick_events :=
  repeat match goal with
  | H : pull_event _ |- _ => destruct H as [-> | ->]
  | H : call_event _ |- _ => destruct H as [-> | ->]
  end.

(** ** C3: coercion of a value that is no stream *)

Lemma coerce_error_is_TypeError T (s : pyobj T) e :
  coerce s = inl e -> e = TypeError.
Proof. destruct s; cbv; congruence. Qed.

Lemma coerce_all_member_fails T (before after : list (pyobj T)) v :
  coerce v = inl TypeError ->
  coerce_all (before ++ v :: after) = inl TypeError.
Proof.
  intros Hv. induction before as [|s before IH]; simpl.
  - rewrite Hv. reflexivity.
  - destruct (coerce s) as [e|s'] eqn:Hs.
    + f_equal. eapply coerce_error_is_TypeError; eassumption.
    + rewrite IH. reflexivity.
Qed.

(** C3. A value that is neither an asynchronous iterator or iterable nor a
    synchronous iterator or iterable makes [coerce] raise [TypeError] (the
    type-classification error), and the operator invocation that coerced
    it ends with that error: [factory] runs neither implementation, [zip]
    yields nothing and pulls nothing. *)
Theorem coerce_rejects_unclassifiable T (v : pyobj T) :
  isinstance_AsyncIterator v = false ->
  isinstance_AsyncIterable v = false ->
  isinstance_Iterator v = false ->
  isinstance_Iterable v = false ->
  coerce v = inl TypeError
  /\ (forall A V (s a : pyobj T -> A -> trace T V) args,
         factory s a v args = [Raise TypeError])
  /\ (forall fuel before after,
         pstream.zip fuel (before ++ v :: after) = Some [Returned; Raise TypeError]).
Proof.
  intros H1 H2 H3 H4.
  assert (Hc : coerce v = inl TypeError).
  { unfold coerce. rewrite H1, H2, H3, H4. reflexivity. }
  split; [exact Hc|]. split.
  - intros. unfold factory. rewrite Hc. reflexivity.
  - intros. unfold pstream.zip, zip_run.
    rewrite (@coerce_all_member_fails T before after v Hc). reflexivity.
Qed.

Lemma coerce_rejects_unclassifiable_witness :
  coerce (@PyOther Z) = inl TypeError
  /\ (forall A V (s a : pyobj Z -> A -> trace Z V) args,
         factory s a PyOther args = [Raise TypeError])
  /\ (forall fuel before after,
         pstream.zip fuel (before ++ @PyOther Z :: after)
         = Some [Returned; Raise TypeError]).
Proof.
  apply (@coerce_rejects_unclassifiable Z PyOther); reflexivity.
Defined.

(** ** The loops of the operators that take a user function *)

Fixpoint take_while_list {T} (p : T -> bool) (l : list T) : list T :=
  match l with
  | [] => []
  | x :: l' => if p x then x :: take_while_list p l' else []
  end.

Fixpoint drop_while_list {T} (p : T -> bool) (l : list T) : list T :=
  match l with
  | [] => []
  | x :: l' => if p x then drop_while_list p l' else x :: l'
  end.

(** The elements whose key was not met before, [seen] being the keys met
    so far. *)
Fixpoint first_by_key {T K} (key_eq_dec : forall a b : K, {a = b} + {a <> b})
    (key : T -> K) (seen : list K) (l : list T) : list T :=
  match l with
  | [] => []
  | x :: l' =>
      if seen_mem key_eq_dec (key x) seen
      then first_by_key key_eq_dec key seen l'
      else x :: first_by_key key_eq_dec key (key x :: seen) l'
  end.

Section Loops.
Context {T : Type}.

Lemma map_loop U pull call (f : pyfun T U) l :
  pull_event pull -> call_event call ->
  exists tr, for_items pull (map_body call f) l tt = (tr, tt, [], None)
    /\ yields tr = List.map (run f) l /\ calls tr = l /\ pulled tr = l.
Proof.
  intros Hp Hc. induction l as [|x l (tr & E & Hy & Hk & Hu)].
  - eexists; split; [reflexivity|]. pick_events; repeat split.
  - simpl. rewrite E. eexists; split; [reflexivity|].
    pick_events; simpl; rewrite Hy, Hk, Hu; repeat split.
Qed.

Lemma filter_loop pull call (f : pyfun T bool) l :
  pull_event pull -> call_event call ->
  exists tr, for_items pull (filter_body call f) l tt = (tr, tt, [], None)
    /\ yields tr = List.filter (run f) l /\ calls tr = l /\ pulled tr = l.
Proof.
  intros Hp Hc. induction l as [|x l (tr & E & Hy & Hk & Hu)].
  - eexists; split; [reflexivity|]. pick_events; repeat split.
  - simpl. rewrite E. eexists; split; [reflexivity|].
    pick_events; simpl; destruct (run f x); simpl;
      rewrite Hy, Hk, Hu; repeat split.
Qed.

Lemma filter_false_loop pull call (f : pyfun T bool) l :
  pull_event pull -> call_event call ->
  exists tr, for_items pull (filter_false_body call f) l tt = (tr, tt, [], None)
    /\ yields tr = List.filter (fun x => negb (run f x)) l
    /\ calls tr = l /\ pulled tr = l.
Proof.
  intros Hp Hc. induction l as [|x l (tr & E & Hy & Hk & Hu)].
  - eexists; split; [reflexivity|]. pick_events; repeat split.
  - simpl. rewrite E. eexists; split; [reflexivity|].
    pick_events; simpl; destruct (run f x); simpl;
      rewrite Hy, Hk, Hu; repeat split.
Qed.

Lemma inspect_loop B pull call (f : pyfun T B) l :
  pull_event pull -> call_event call ->
  exists tr, for_items pull (inspect_body call f) l tt = (tr, tt, [], None)
    /\ yields tr = l /\ calls tr = l /\ pulled tr = l.
Proof.
  intros Hp Hc. induction l as [|x l (tr & E & Hy & Hk & Hu)].
  - eexists; split; [reflexivity|]. pick_events; repeat split.
  - simpl. rewrite E. eexists; split; [reflexivity|].
    pick_events; simpl; rewrite Hy, Hk, Hu; repeat split.
Qed.

Lemma for_each_loop B pull call (f : pyfun T B) l :
  pull_event pull -> call_event call ->
  exists tr, for_items pull (for_each_body call f) l tt = (tr, tt, [], None)
    /\ yields tr = List.map (fun _ => tt) l /\ calls tr = l /\ pulled tr = l.
Proof.
  intros Hp Hc. induction l as [|x l (tr & E & Hy & Hk & Hu)].
  - eexists; split; [reflexivity|]. pick_events; repeat split.
  - simpl. rewrite E. eexists; split; [reflexivity|].
    pick_events; simpl; rewrite Hy, Hk, Hu; repeat split.
Qed.

Lemma take_while_loop pull call (f : pyfun T bool) l :
  pull_event pull -> call_event call ->
  exists tr rest, for_items pull (take_while_body call f) l tt = (tr, tt, rest, None)
    /\ yields tr = take_while_list (run f) l
    /\ calls tr = take_while_list (run f) l ++ firstn 1 (drop_while_list (run f) l).
Proof.
  intros Hp Hc. induction l as [|x l (tr & rest & E & Hy & Hk)].
  - do 2 eexists; split; [reflexivity|]. pick_events; repeat split.
  - simpl. unfold take_while_body at 1. destruct (run f x).
    + rewrite E. do 2 eexists; split; [reflexivity|].
      pick_events; simpl; rewrite Hy, Hk; repeat split.
    + do 2 eexists; split; [reflexivity|]. pick_events; repeat split.
Qed.

Lemma distinct_with_loop K (key_eq_dec : forall a b : K, {a = b} + {a <> b})
    pull call (f : pyfun T K) l seen :
  pull_event pull -> call_event call ->
  exists tr seen',
    for_items pull (distinct_with_body key_eq_dec call f) l seen
    = (tr, seen', [], None)
    /\ yields tr = first_by_key key_eq_dec (run f) seen l
    /\ calls tr = l /\ pulled tr = l.
Proof.
  intros Hp Hc. revert seen. induction l as [|x l IH]; intros seen.
  - do 2 eexists; split; [reflexivity|]. pick_events; repeat split.
  - simpl. unfold distinct_with_body at 1.
    destruct (seen_mem key_eq_dec (run f x) seen).
    + destruct (IH seen) as (tr & seen' & E & Hy & Hk & Hu). rewrite E.
      do 2 eexists; split; [reflexivity|].
      pick_events; simpl; rewrite Hy, Hk, Hu; repeat split.
    + destruct (IH (run f x :: seen)) as (tr & seen' & E & Hy & Hk & Hu).
      rewrite E. do 2 eexists; split; [reflexivity|].
      pick_events; simpl; rewrite Hy, Hk, Hu; repeat split.
Qed.

(** [itertools.dropwhile], from the moment its flag is set and before. *)
Lemma dropwhile_started_loop pull (f : pyfun T bool) l :
  pull_event pull ->
  exists tr, for_items pull (dropwhile_body f) l true = (tr, true, [], None)
    /\ yields tr = l /\ calls tr = [].
Proof.
  intros Hp. induction l as [|x l (tr & E & Hy & Hk)].
  - eexists; split; [reflexivity|]. pick_events; repeat split.
  - simpl. rewrite E. eexists; split; [reflexivity|].
    pick_events; simpl; rewrite Hy, Hk; repeat split.
Qed.

Lemma dropwhile_loop pull (f : pyfun T bool) l :
  pull_event pull ->
  exists tr start, for_items pull (dropwhile_body f) l false = (tr, start, [], None)
    /\ yields tr = drop_while_list (run f) l
    /\ calls tr = take_while_list (run f) l ++ firstn 1 (drop_while_list (run f) l).
Proof.
  intros Hp. induction l as [|x l (tr & start & E & Hy & Hk)].
  - do 2 eexists; split; [reflexivity|]. pick_events; repeat split.
  - simpl. destruct (run f x).
    + rewrite E. do 2 eexists; split; [reflexivity|].
      pick_events; simpl; rewrite Hy, Hk; repeat split.
    + destruct (dropwhile_started_loop f l Hp) as (tr' & E' & Hy' & Hk').
      rewrite E'. do 2 eexists; split; [reflexivity|].
      pick_events; simpl; rewrite Hy', Hk'; repeat split.
Qed.

(** The first loop of the hand-written [skip_while]: it leaves in the
    cursor what follows the first rejected element. *)
Lemma skip_while_first_loop pull call (f : pyfun T bool) l :
  pull_event pull -> call_event call ->
  exists tr, for_items pull (skip_while_body call f) l tt
             = (tr, tt, tl (drop_while_list (run f) l), None)
    /\ yields tr = firstn 1 (drop_while_list (run f) l)
    /\ calls tr = take_while_list (run f) l ++ firstn 1 (drop_while_list (run f) l).
Proof.
  intros Hp Hc. induction l as [|x l (tr & E & Hy & Hk)].
  - eexists; split; [reflexivity|]. pick_events; repeat split.
  - simpl. unfold skip_while_body at 1. destruct (run f x); simpl.
    + rewrite E. eexists; split; [reflexivity|].
      pick_events; simpl; rewrite Hy, Hk; repeat split.
    + eexists; split; [reflexivity|]. pick_events; repeat split.
Qed.

Lemma forward_loop pull l :
  pull_event pull ->
  exists tr, for_items pull (@forward_body T) l tt = (tr, tt, [], None)
    /\ yields tr = l /\ calls tr = [] /\ pulled tr = l /\ raised tr = None.
Proof.
  intros Hp. induction l as [|x l (tr & E & Hy & Hk & Hu & Hr)].
  - eexists; split; [reflexivity|]. pick_events; repeat split.
  - simpl. rewrite E. eexists; split; [reflexivity|].
    pick_events; simpl; rewrite Hy, Hk, Hu, Hr; repeat split.
Qed.
End Loops.

(** ** What the dispatched operators yield *)

Ltac open_source s Hs :=
  destruct s; try discriminate Hs; injection Hs as <-.

Ltac open_cursor Hs := destruct Hs as [-> | ->].

Ltac open_dispatch :=
  cbv beta zeta delta
    [pstream.map pstream.filter pstream.filter_false pstream.inspect
     pstream.for_each pstream.take_while pstream.skip_while
     pstream.distinct_with pstream.group_by
     higher_order_factory iscoroutinefunction is_async_stream
     isinstance_AsyncIterator isinstance_AsyncIterable negb andb orb
     ss_map sa_map as_map aa_map ss_filter sa_filter as_filter aa_filter
     ss_filter_false sa_filter_false as_filter_false aa_filter_false
     ss_inspect sa_inspect as_inspect aa_inspect
     ss_for_each sa_for_each as_for_each aa_for_each
     ss_take_while sa_take_while as_take_while aa_take_while
     ss_skip_while sa_skip_while as_skip_while aa_skip_while
     ss_distinct_with sa_distinct_with as_distinct_with aa_distinct_with
     ss_group_by sa_group_by as_group_by aa_group_by
     builtin generator seq_stmt for_in async_for_in for_stmt iter_ aiter_]
    iota.

(** The fact about the loop the goal runs, found by its body. *)
Ltac loop_fact L :=
  lazymatch goal with
  | |- context [for_items ?p (map_body ?c ?f) ?l tt] =>
      pose proof (@map_loop _ _ p c f l) as L
  | |- context [for_items ?p (filter_body ?c ?f) ?l tt] =>
      pose proof (@filter_loop _ p c f l) as L
  | |- context [for_items ?p (filter_false_body ?c ?f) ?l tt] =>
      pose proof (@filter_false_loop _ p c f l) as L
  | |- context [for_items ?p (inspect_body ?c ?f) ?l tt] =>
      pose proof (@inspect_loop _ _ p c f l) as L
  | |- context [for_items ?p (for_each_body ?c ?f) ?l tt] =>
      pose proof (@for_each_loop _ _ p c f l) as L
  | |- context [for_items ?p (take_while_body ?c ?f) ?l tt] =>
      pose proof (@take_while_loop _ p c f l) as L
  | |- context [for_items ?p (distinct_with_body ?d ?c ?f) ?l ?seen] =>
      pose proof (@distinct_with_loop _ _ d p c f l seen) as L
  | |- context [for_items ?p (skip_while_body ?c ?f) ?l tt] =>
      pose proof (@skip_while_first_loop _ p c f l) as L
  | |- context [for_items ?p (dropwhile_body ?f) ?l false] =>
      pose proof (@dropwhile_loop _ p f l) as L
  | |- context [for_items ?p (@forward_body _) ?l tt] =>
      pose proof (@forward_loop _ p l) as L
  end;
  repeat match type of L with
         | pull_event _ -> _ => specialize (L ltac:(auto with events))
         | call_event _ -> _ => specialize (L ltac:(auto with events))
         end.

Ltac close_loop E :=
  rewrite E; simpl; unfold finish;
  rewrite ?app_nil_r, ?yields_app, ?calls_app.

Section DispatchedOutput.
Context {T : Type}.

Lemma map_output U (f : pyfun T U) s l :
  contents s = Some l ->
  yields (pstream.map f s) = List.map (run f) l.
Proof.
  intros Hs. open_source s Hs; destruct f as [g|g]; open_dispatch;
    loop_fact L; destruct L as (tr & E & Hy & _); close_loop E; exact Hy.
Qed.

Lemma filter_output (f : pyfun T bool) s l :
  contents s = Some l ->
  yields (pstream.filter f s) = List.filter (run f) l.
Proof.
  intros Hs. open_source s Hs; destruct f as [g|g]; open_dispatch;
    loop_fact L; destruct L as (tr & E & Hy & _); close_loop E; exact Hy.
Qed.

Lemma filter_false_output (f : pyfun T bool) s l :
  contents s = Some l ->
  yields (pstream.filter_false f s) = List.filter (fun x => negb (run f x)) l.
Proof.
  intros Hs. open_source s Hs; destruct f as [g|g]; open_dispatch;
    loop_fact L; destruct L as (tr & E & Hy & _); close_loop E; exact Hy.
Qed.

Lemma inspect_output B (f : pyfun T B) s l :
  contents s = Some l ->
  yields (pstream.inspect f s) = l /\ calls (pstream.inspect f s) = l.
Proof.
  intros Hs. open_source s Hs; destruct f as [g|g]; open_dispatch;
    loop_fact L; destruct L as (tr & E & Hy & Hk & _); close_loop E;
    split; assumption.
Qed.

Lemma for_each_output B (f : pyfun T B) s l :
  contents s = Some l ->
  yields (pstream.for_each f s) = List.map (fun _ => tt) l
  /\ calls (pstream.for_each f s) = l.
Proof.
  intros Hs. open_source s Hs; destruct f as [g|g]; open_dispatch;
    loop_fact L; destruct L as (tr & E & Hy & Hk & _); close_loop E;
    split; assumption.
Qed.

Lemma take_while_output (f : pyfun T bool) s l :
  contents s = Some l ->
  yields (pstream.take_while f s) = take_while_list (run f) l.
Proof.
  intros Hs. open_source s Hs; destruct f as [g|g]; open_dispatch;
    loop_fact L; destruct L as (tr & left & E & Hy & _); close_loop E;
    exact Hy.
Qed.

Lemma distinct_with_output K (key_eq_dec : forall a b : K, {a = b} + {a <> b})
    (f : pyfun T K) s l :
  contents s = Some l ->
  yields (pstream.distinct_with key_eq_dec f s)
  = first_by_key key_eq_dec (run f) [] l.
Proof.
  intros Hs. open_source s Hs; destruct f as [g|g]; open_dispatch;
    loop_fact L; destruct L as (tr & seen & E & Hy & _); close_loop E;
    exact Hy.
Qed.

(** On a pull cursor every implementation of [skip_while] drops the
    leading run the predicate accepts, forwards the rest, and applies
    the predicate to that run and to the element that ends it only. *)
Lemma skip_while_on_cursor (f : pyfun T bool) s l :
  cursor s l ->
  yields (pstream.skip_while f s) = drop_while_list (run f) l
  /\ calls (pstream.skip_while f s)
     = take_while_list (run f) l ++ firstn 1 (drop_while_list (run f) l).
Proof.
  intros Hs. open_cursor Hs; destruct f as [g|g]; open_dispatch.
  1: { loop_fact L; destruct L as (tr & st & E & Hy & Hk); close_loop E.
       split; assumption. }
  all: loop_fact L; destruct L as (tr & E & Hy & Hk); rewrite E;
    loop_fact L2; destruct L2 as (tr2 & E2 & Hy2 & Hk2 & _); close_loop E2;
    rewrite Hy, Hy2, Hk, Hk2, app_nil_r; split; [|reflexivity];
    match goal with
    | |- context [drop_while_list ?p ?l] =>
        destruct (drop_while_list p l); reflexivity
    end.
Qed.
End DispatchedOutput.

(** ** C1, C4, C8: the dispatcher of the operators with a user function
    does not coerce *)

(** Whatever the source is, the implementation receives it as it came. *)
Lemma higher_order_factory_hands_on T A B V
    (ss sa _as aa : pyfun A B -> pyobj T -> trace T V) f stream :
  higher_order_factory ss sa _as aa f stream
  = match iscoroutinefunction f, is_async_stream stream with
    | false, false => ss f stream
    | false, true => sa f stream
    | true, false => _as f stream
    | true, true => aa f stream
    end.
Proof.
  unfold higher_order_factory.
  destruct (iscoroutinefunction f), (is_async_stream stream); reflexivity.
Qed.

(** C1. The four combinations do not agree on [skip_while]: over the same
    list [[1; 2; 3; 1]] and the same predicate [x < 2], the plain function
    gives [[2; 3; 1]] and the coroutine function gives [[2; 1; 2; 3; 1]];
    over an asynchronous iterable of the same data both give the longer
    output.  The dispatcher hands the list itself to [as_skip_while], and
    its second [for] statement walks the list from the start again. *)
Theorem skip_while_dispatch_disagrees :
  let p := fun x : Z => (x <? 2)%Z in
  let data := [1; 2; 3; 1]%Z in
  yields (pstream.skip_while (Def p) (PyIterable data)) = [2; 3; 1]%Z
  /\ yields (pstream.skip_while (AsyncDef p) (PyIterable data)) = [2; 1; 2; 3; 1]%Z
  /\ yields (pstream.skip_while (Def p) (PyAsyncIterable data)) = [2; 1; 2; 3; 1]%Z
  /\ yields (pstream.skip_while (AsyncDef p) (PyAsyncIterable data)) = [2; 1; 2; 3; 1]%Z.
Proof. repeat split. Qed.

(** C4. The dispatcher does not coerce: on a value that is no stream the
    call of [group_by] (any function) and of [map] with a coroutine
    function returns a generator, and [TypeError] comes only when the
    first element is demanded; the call fails at once only where the
    implementation is a builtin ([map] with a plain function), and for the
    operators behind [factory], which does coerce. *)
Theorem higher_order_dispatch_defers_failure T K U
    (key_eq_dec : forall a b : K, {a = b} + {a <> b})
    (f : pyfun T K) (g : T -> U) (n : Z) :
  pstream.group_by key_eq_dec f PyOther = [Returned; Raise TypeError]
  /\ at_call (pstream.group_by key_eq_dec f PyOther) = []
  /\ pstream.map (AsyncDef g) PyOther = [Returned; Raise TypeError]
  /\ pstream.map (Def g) PyOther = [Raise TypeError]
  /\ pstream.take (@PyOther T) n = [Raise TypeError].
Proof. destruct f; repeat split. Qed.

(** C8. Handed a container, the hand-written [skip_while] does not pass
    from skipping to forwarding once: after the first element the
    predicate rejects it yields the whole content again, and when the
    predicate accepts every element it yields all of them instead of
    none.  This is the case of a list with a coroutine predicate and of an
    asynchronous iterable with any predicate. *)
Theorem skip_while_restarts_on_container T (f : pyfun T bool) (l : list T) :
  yields (pstream.skip_while (AsyncDef (run f)) (PyIterable l))
  = firstn 1 (drop_while_list (run f) l) ++ l
  /\ yields (pstream.skip_while f (PyAsyncIterable l))
     = firstn 1 (drop_while_list (run f) l) ++ l.
Proof.
  split; [|destruct f as [g|g]]; open_dispatch;
    loop_fact L; destruct L as (tr & E & Hy & Hk); rewrite E;
    loop_fact L2; destruct L2 as (tr2 & E2 & Hy2 & Hk2 & _); close_loop E2;
    rewrite Hy, Hy2; reflexivity.
Qed.

(** ** C6: group_by *)

Section FirstSeen.
Context {K : Type}.
Variable key_eq_dec : forall a b : K, {a = b} + {a <> b}.

(** The distinct keys, in the order of their first occurrence. *)
Definition first_seen (ks : list K) : list K :=
  first_by_key key_eq_dec (fun k => k) [] ks.

Lemma seen_mem_true k seen : seen_mem key_eq_dec k seen = true <-> In k seen.
Proof.
  unfold seen_mem. destruct (in_dec key_eq_dec k seen); split;
    auto; discriminate.
Qed.

Lemma seen_mem_false k seen : seen_mem key_eq_dec k seen = false <-> ~ In k seen.
Proof.
  unfold seen_mem. destruct (in_dec key_eq_dec k seen); split;
    auto; try discriminate. intros H; contradiction.
Qed.

Lemma in_first_keys k seen ks :
  In k (first_by_key key_eq_dec (fun k => k) seen ks)
  <-> In k ks /\ ~ In k seen.
Proof.
  revert seen. induction ks as [|a ks IH]; intros seen; simpl.
  - tauto.
  - destruct (seen_mem key_eq_dec a seen) eqn:M.
    + apply seen_mem_true in M. rewrite IH. split.
      * tauto.
      * intros [[->|H] N]; [contradiction | tauto].
    + apply seen_mem_false in M. simpl. rewrite IH. simpl. split.
      * intros [->|[H N]]; [tauto|]. split; [tauto|]. tauto.
      * intros [[->|H] N]; [tauto|].
        destruct (key_eq_dec a k) as [->|D]; [tauto|]. right. tauto.
Qed.

Lemma NoDup_first_keys seen ks :
  NoDup (first_by_key key_eq_dec (fun k => k) seen ks).
Proof.
  revert seen. induction ks as [|a ks IH]; intros seen; simpl.
  - constructor.
  - destruct (seen_mem key_eq_dec a seen); [apply IH|].
    constructor; [|apply IH]. rewrite in_first_keys. simpl. tauto.
Qed.

Lemma in_dec_ext (A : Type) k l1 l2 (a b : A) :
  (In k l1 <-> In k l2) ->
  (if in_dec key_eq_dec k l1 then a else b)
  = (if in_dec key_eq_dec k l2 then a else b).
Proof.
  intros H. destruct (in_dec key_eq_dec k l1), (in_dec key_eq_dec k l2);
    tauto.
Qed.

Lemma first_keys_snoc seen ks k :
  first_by_key key_eq_dec (fun k => k) seen (ks ++ [k])
  = first_by_key key_eq_dec (fun k => k) seen ks
    ++ (if in_dec key_eq_dec k (seen ++ ks) then [] else [k]).
Proof.
  revert seen. induction ks as [|a ks IH]; intros seen; simpl.
  - rewrite app_nil_r. unfold seen_mem.
    destruct (in_dec key_eq_dec k seen); reflexivity.
  - destruct (seen_mem key_eq_dec a seen) eqn:M.
    + rewrite IH. f_equal. apply seen_mem_true in M.
      apply in_dec_ext. rewrite !in_app_iff. simpl.
      split; [tauto|]. intros [H|[->|H]]; tauto.
    + rewrite IH. cbn [app]. f_equal. f_equal.
      apply in_dec_ext. rewrite !in_app_iff. simpl. rewrite in_app_iff. tauto.
Qed.

Lemma in_first_seen k ks : In k (first_seen ks) <-> In k ks.
Proof. unfold first_seen. rewrite in_first_keys. simpl. tauto. Qed.

Lemma NoDup_first_seen ks : NoDup (first_seen ks).
Proof. apply NoDup_first_keys. Qed.

Lemma first_seen_snoc ks k :
  first_seen (ks ++ [k])
  = first_seen ks ++ (if in_dec key_eq_dec k ks then [] else [k]).
Proof. unfold first_seen. rewrite first_keys_snoc. reflexivity. Qed.
End FirstSeen.

Section GroupBySpec.
Context {T K : Type}.
Variable key_eq_dec : forall a b : K, {a = b} + {a <> b}.
Variable key : T -> K.

Definition has_key (k : K) (x : T) : bool :=
  if key_eq_dec (key x) k then true else false.

(** The buckets as the specification describes them: one per distinct
    key, in first-seen order, each holding the elements of that key in
    source order. *)
Definition group_by_spec (l : list T) : list (list T) :=
  List.map (fun k => List.filter (has_key k) l)
           (first_seen key_eq_dec (List.map key l)).

Definition groups_of (ks : list K) (l : list T) : list (K * list T) :=
  List.map (fun k => (k, List.filter (has_key k) l)) ks.

Lemma groups_append_present k x ks l :
  NoDup ks -> In k ks ->
  groups_append key_eq_dec k x (groups_of ks l)
  = List.map (fun k' => (k', List.filter (has_key k') l
                              ++ (if key_eq_dec k k' then [x] else []))) ks.
Proof.
  induction ks as [|a ks IH]; intros N I; [contradiction|].
  inversion N as [|? ? Na Nks]; subst. simpl.
  destruct (key_eq_dec k a) as [->|D].
  - f_equal. unfold groups_of. apply map_ext_in. intros k' Hk'.
    destruct (key_eq_dec a k') as [->|_]; [contradiction|].
    rewrite app_nil_r. reflexivity.
  - rewrite app_nil_r. f_equal. apply IH; [assumption|].
    destruct I as [->|I]; [contradiction|assumption].
Qed.

Lemma groups_append_absent k x ks l :
  ~ In k ks ->
  groups_append key_eq_dec k x (groups_of ks l) = groups_of ks l ++ [(k, [x])].
Proof.
  induction ks as [|a ks IH]; intros N; simpl; [reflexivity|].
  destruct (key_eq_dec k a) as [->|D]; [simpl in N; tauto|].
  f_equal. apply IH. simpl in N. tauto.
Qed.

Lemma filter_has_key_absent k l :
  ~ In k (List.map key l) -> List.filter (has_key k) l = [].
Proof.
  induction l as [|x l IH]; simpl; intros N; [reflexivity|].
  unfold has_key at 1. destruct (key_eq_dec (key x) k) as [E|_]; [tauto|].
  apply IH. tauto.
Qed.

(** The dict after the loop has run over [l]. *)
Lemma groups_fold l :
  fold_left (fun g x => groups_append key_eq_dec (key x) x g) l []
  = groups_of (first_seen key_eq_dec (List.map key l)) l.
Proof.
  induction l as [|x l IH] using rev_ind; [reflexivity|].
  rewrite fold_left_app. simpl. rewrite IH, map_app. simpl.
  rewrite first_seen_snoc.
  destruct (in_dec key_eq_dec (key x) (List.map key l)) as [I|N].
  - rewrite app_nil_r, groups_append_present;
      [|apply NoDup_first_seen|apply in_first_seen; assumption].
    unfold groups_of. apply map_ext. intros k'. f_equal.
    rewrite filter_app. simpl. unfold has_key at 3.
    destruct (key_eq_dec (key x) k'); reflexivity.
  - rewrite groups_append_absent by (rewrite in_first_seen; assumption).
    unfold groups_of. rewrite map_app. simpl. f_equal.
    + apply map_ext_in. intros k' Hk'. f_equal.
      rewrite filter_app. simpl. unfold has_key at 3.
      destruct (key_eq_dec (key x) k') as [<-|_].
      * apply in_first_seen in Hk'. contradiction.
      * symmetry. apply app_nil_r.
    + rewrite filter_app, filter_has_key_absent by assumption. simpl.
      unfold has_key. destruct (key_eq_dec (key x) (key x)); [reflexivity|].
      contradiction.
Qed.
End GroupBySpec.

Lemma group_by_loop T K (key_eq_dec : forall a b : K, {a = b} + {a <> b})
    pull call (f : pyfun T K) l groups :
  pull_event pull -> call_event call ->
  exists tr : trace T (list T),
    for_items pull (group_by_body key_eq_dec call f) l groups
    = (tr, fold_left (fun g x => groups_append key_eq_dec (run f x) x g) l groups,
       [], None)
    /\ yields tr = [] /\ calls tr = l /\ pulled tr = l.
Proof.
  intros Hp Hc. revert groups. induction l as [|x l IH]; intros groups.
  - eexists; split; [reflexivity|]. pick_events; repeat split.
  - simpl. destruct (IH (groups_append key_eq_dec (run f x) x groups))
      as (tr & E & Hy & Hk & Hu).
    rewrite E. eexists; split; [reflexivity|].
    pick_events; simpl; rewrite Hy, Hk, Hu; repeat split.
Qed.

(** C6. [group_by] over any finite source, with a plain or a coroutine
    key function: everything the source holds is pulled, and the key
    function applied to it, before the first bucket is yielded; there is
    one bucket per distinct key, in the order in which the keys were first
    seen, and a bucket holds the elements of its key in source order.
    [group_by(lambda x: x % 2, [1, 2, 3, 4])] yields [[1, 3], [2, 4]]. *)
Theorem group_by_buckets T K (key_eq_dec : forall a b : K, {a = b} + {a <> b})
    (f : pyfun T K) (s : pyobj T) (l : list T) :
  contents s = Some l ->
  (exists drain,
      pstream.group_by key_eq_dec f s
      = Returned :: drain
        ++ List.map (fun g => Yield g) (group_by_spec key_eq_dec (run f) l)
      /\ yields drain = [] /\ pulled drain = l /\ calls drain = l)
  /\ yields (pstream.group_by key_eq_dec f s)
     = List.map (fun k => List.filter (has_key key_eq_dec (run f) k) l)
                (first_seen key_eq_dec (List.map (run f) l))
  /\ NoDup (first_seen key_eq_dec (List.map (run f) l))
  /\ (forall k, In k (first_seen key_eq_dec (List.map (run f) l))
                <-> In k (List.map (run f) l))
  /\ yields (pstream.group_by Z.eq_dec (Def (fun x => x mod 2)%Z)
               (PyIterable [1; 2; 3; 4]%Z))
     = [[1; 3]; [2; 4]]%Z.
Proof.
  intros Hs.
  assert (H : exists drain,
      pstream.group_by key_eq_dec f s
      = Returned :: drain
        ++ List.map (fun g => Yield g) (group_by_spec key_eq_dec (run f) l)
      /\ yields drain = [] /\ pulled drain = l /\ calls drain = l).
  { open_source s Hs; destruct f as [g|g]; open_dispatch;
      match goal with
      | |- context [for_items ?p (group_by_body ?d ?c ?f) ?l ?gs] =>
          destruct (@group_by_loop _ _ d p c f l gs) as (tr & E & Hy & Hk & Hu);
          [auto with events ..|]
      end;
      rewrite E; exists tr; (split; [|auto]);
      unfold yield_groups, finish; rewrite app_nil_r, groups_fold;
      unfold groups_of, group_by_spec; rewrite !map_map; reflexivity. }
  split; [exact H|]. split; [|split; [|split]].
  - destruct H as (drain & -> & Hy & _). simpl.
    rewrite yields_app, Hy, yields_map_Yield. reflexivity.
  - apply NoDup_first_seen.
  - intros k. apply in_first_seen.
  - reflexivity.
Qed.

Lemma group_by_buckets_witness :
  yields (pstream.group_by Z.eq_dec (AsyncDef (fun x => x mod 2)%Z)
            (PyAsyncIterator [1; 2; 3; 4]%Z))
  = List.map (fun k => List.filter
                         (has_key Z.eq_dec (run (AsyncDef (fun x => x mod 2)%Z)) k)
                         [1; 2; 3; 4]%Z)
             (first_seen Z.eq_dec
                (List.map (run (AsyncDef (fun x => x mod 2)%Z)) [1; 2; 3; 4]%Z)).
Proof.
  apply (@group_by_buckets Z Z Z.eq_dec (AsyncDef (fun x => x mod 2)%Z)
           (PyAsyncIterator [1; 2; 3; 4]%Z) [1; 2; 3; 4]%Z).
  reflexivity.
Defined.

(** ** C9 and C2: skip, take, pool, step_by behind [factory] *)

(** What [coerce] makes of a source of content [l]. *)
Lemma coerce_contents T (s : pyobj T) l :
  contents s = Some l ->
  (coerce s = inr (PyIterator l) /\ is_async_stream s = false)
  \/ (coerce s = inr (PyAsyncIterator l) /\ is_async_stream s = true).
Proof. intros Hs. open_source s Hs; cbv; auto. Qed.

(** The constructor of the cursor, the call that advances it and the
    event that records the call go together. *)
Definition protocol {T V} (mk : list T -> pyobj T)
    (get : pyobj T -> exn + (option T * pyobj T))
    (pull : option T -> event T V) : Prop :=
  (mk = @PyIterator T /\ get = @next_ T /\ pull = Next 0)
  \/ (mk = @PyAsyncIterator T /\ get = @anext_ T /\ pull = ANext 0).

Ltac pick_protocol H := destruct H as [(-> & -> & ->) | (-> & -> & ->)].

Section SkipTake.
Context {T : Type}.

Lemma range_next_discards mk get (pull : option T -> event T T) n l :
  protocol mk get pull ->
  exists tr, range_next pull get (fun _ => []) n (mk l) tt
             = (tr, tt, mk (skipn n l), None)
    /\ yields tr = [] /\ pulled tr = firstn n l /\ raised tr = None.
Proof.
  intros P. revert l. induction n as [|n IH]; intros l.
  - eexists; split; [reflexivity|]. repeat split.
  - destruct l as [|x l].
    + pick_protocol P; (eexists; split; [reflexivity|]); repeat split.
    + destruct (IH l) as (tr & E & Hy & Hu & Hr).
      pick_protocol P; simpl; simpl in E; rewrite E;
        (eexists; split; [reflexivity|]); simpl; rewrite Hy, Hu, Hr;
        repeat split.
Qed.

Lemma range_next_yields mk get (pull : option T -> event T T) n l :
  protocol mk get pull ->
  exists tr, range_next pull get (fun x => [Yield x]) n (mk l) tt
             = (tr, tt, mk (skipn n l), None)
    /\ yields tr = firstn n l /\ pulled tr = firstn n l /\ raised tr = None.
Proof.
  intros P. revert l. induction n as [|n IH]; intros l.
  - eexists; split; [reflexivity|]. repeat split.
  - destruct l as [|x l].
    + pick_protocol P; (eexists; split; [reflexivity|]); repeat split.
    + destruct (IH l) as (tr & E & Hy & Hu & Hr).
      pick_protocol P; simpl; simpl in E; rewrite E;
        (eexists; split; [reflexivity|]); simpl; rewrite Hy, Hu, Hr;
        repeat split.
Qed.

Lemma protocol_sync : protocol (@PyIterator T) (@next_ T) (@Next T T 0).
Proof. left; auto. Qed.
Lemma protocol_async : protocol (@PyAsyncIterator T) (@anext_ T) (@ANext T T 0).
Proof. right; auto. Qed.

Lemma take_output (s : pyobj T) l (limit : Z) :
  contents s = Some l ->
  yields (pstream.take s limit) = firstn (range_len limit) l
  /\ pulled (pstream.take s limit) = firstn (range_len limit) l
  /\ raised (pstream.take s limit) = None.
Proof.
  intros Hs. unfold pstream.take, factory.
  destruct (coerce_contents s Hs) as [[-> _]|[-> _]];
    cbn [is_async_stream isinstance_AsyncIterator isinstance_AsyncIterable orb];
    unfold s_take, a_take, generator;
    [ destruct (range_next_yields (range_len limit) l protocol_sync)
        as (tr & E & Hy & Hu & Hr)
    | destruct (range_next_yields (range_len limit) l protocol_async)
        as (tr & E & Hy & Hu & Hr) ];
    rewrite E; unfold finish; rewrite app_nil_r; simpl; auto.
Qed.

Lemma skip_output (s : pyobj T) l (limit : Z) :
  contents s = Some l ->
  yields (pstream.skip s limit) = skipn (range_len limit) l
  /\ pulled (pstream.skip s limit) = l
  /\ raised (pstream.skip s limit) = None.
Proof.
  intros Hs. unfold pstream.skip, factory.
  destruct (coerce_contents s Hs) as [[-> _]|[-> _]];
    cbn [is_async_stream isinstance_AsyncIterator isinstance_AsyncIterable orb];
    unfold s_skip, a_skip, generator, seq_stmt;
    [ destruct (range_next_discards (range_len limit) l protocol_sync)
        as (tr & E & Hy & Hu & Hr)
    | destruct (range_next_discards (range_len limit) l protocol_async)
        as (tr & E & Hy & Hu & Hr) ];
    rewrite E; unfold for_in, async_for_in, for_stmt, iter_, aiter_;
    loop_fact L; destruct L as (tr2 & E2 & Hy2 & Hk2 & Hu2 & Hr2);
    rewrite E2; unfold finish; rewrite app_nil_r; simpl;
    rewrite yields_app, pulled_app, raised_app_none, Hy, Hy2, Hu, Hu2
      by assumption;
    rewrite firstn_skipn; auto.
Qed.
End SkipTake.

(** C9. For a source of content [l] and a count [n >= 0], the outputs of
    [take] and of [skip], each run on its own copy of the source, put end
    to end give [l] back: [take] yields the first [n] elements (all of [l]
    if it is shorter), [skip] pulls and drops exactly [min n (length l)]
    leading elements and forwards the others. *)
Theorem take_skip_partition T (s : pyobj T) (l : list T) (n : Z) :
  contents s = Some l ->
  (0 <= n)%Z ->
  yields (pstream.take s n) ++ yields (pstream.skip s n) = l
  /\ yields (pstream.take s n) = firstn (Z.to_nat n) l
  /\ (Z.of_nat (List.length (yields (pstream.take s n))) <= n)%Z
  /\ yields (pstream.skip s n) = skipn (Z.to_nat n) l
  /\ pulled (pstream.skip s n) = firstn (Z.to_nat n) l ++ yields (pstream.skip s n)
  /\ Z.of_nat (List.length (firstn (Z.to_nat n) l))
     = Z.min n (Z.of_nat (List.length l)).
Proof.
  intros Hs Hn.
  destruct (take_output s n Hs) as (Ht & _ & _).
  destruct (skip_output s n Hs) as (Hk & Hu & _).
  rewrite Ht, Hk, Hu. unfold range_len.
  repeat split.
  - apply firstn_skipn.
  - rewrite length_firstn. lia.
  - symmetry. apply firstn_skipn.
  - rewrite length_firstn. lia.
Qed.

Lemma take_skip_partition_witness :
  let s := PyIterable [10; 20; 30]%Z in
  contents s = Some [10; 20; 30]%Z /\ (0 <= 2)%Z
  /\ yields (pstream.take s 2) ++ yields (pstream.skip s 2) = [10; 20; 30]%Z.
Proof.
  split; [reflexivity|]. split; [lia|].
  apply (@take_skip_partition Z (PyIterable [10; 20; 30]%Z) [10; 20; 30]%Z 2%Z);
    [reflexivity | lia].
Defined.

Section NonPositive.
Context {T : Type}.

(** With [size <= 0] the test [len(p) == size] never holds: the pool
    only grows. *)
Lemma pool_loop_nonpositive pull (size : Z) l p :
  pull_event pull -> (size <= 0)%Z ->
  exists tr : trace T (list T),
    for_items pull (pool_body size) l p = (tr, p ++ l, [], None)
    /\ yields tr = [] /\ pulled tr = l /\ raised tr = None.
Proof.
  intros Hp Hz. revert p. induction l as [|x l IH]; intros p.
  - rewrite app_nil_r. eexists; split; [reflexivity|].
    pick_events; repeat split.
  - simpl. unfold pool_body at 1.
    destruct (Z.eqb_spec (Z.of_nat (List.length (p ++ [x]))) size) as [E|_].
    + rewrite length_app in E. simpl in E. lia.
    + destruct (IH (p ++ [x])) as (tr & E & Hy & Hu & Hr). rewrite E.
      rewrite <- app_assoc. simpl. eexists; split; [reflexivity|].
      pick_events; simpl; rewrite Hy, Hu, Hr; repeat split.
Qed.

Lemma pool_nonpositive (s : pyobj T) l (size : Z) :
  contents s = Some l -> (size <= 0)%Z ->
  raised (pstream.pool s size) = None
  /\ yields (pstream.pool s size) = match l with [] => [] | _ => [l] end
  /\ pulled (pstream.pool s size) = l.
Proof.
  intros Hs Hz. unfold pstream.pool, factory.
  destruct (coerce_contents s Hs) as [[-> _]|[-> _]];
    cbn [is_async_stream isinstance_AsyncIterator isinstance_AsyncIterable orb];
    unfold s_pool, a_pool, generator, seq_stmt, for_in, async_for_in,
      for_stmt, iter_, aiter_;
    match goal with
    | |- context [for_items ?p (pool_body ?n) ?l ?q] =>
        destruct (@pool_loop_nonpositive p n l q) as (tr & E & Hy & Hu & Hr);
        [auto with events | assumption |]
    end;
    rewrite E; unfold pool_rest, finish; rewrite app_nil_r; simpl;
    rewrite yields_app, pulled_app, raised_app_none, Hy, Hu by assumption;
    destruct l; simpl; rewrite ?app_nil_r; auto.
Qed.

Lemma step_by_sync_nonpositive (s : pyobj T) (step : Z) :
  is_async_stream s = false -> isinstance_Iterable s = true ->
  (step <= 0)%Z ->
  pstream.step_by s step = [Raise ValueError].
Proof.
  intros Ha Hi Hz. unfold pstream.step_by, factory.
  destruct s; try discriminate; simpl; unfold s_step_by;
    destruct (Z.ltb_spec step 1); try reflexivity; lia.
Qed.
End NonPositive.

(** An operator call rejects its argument before touching the source. *)
Definition rejected_before_pulling {T V} (tr : trace T V) : Prop :=
  exists e, raised tr = Some e /\ pulled tr = [].

(** Counterexample to C2 as stated: a count or size of [0] is not
    rejected by [take], [skip] or [pool]. *)
Lemma nonpositive_count_not_rejected :
  ~ rejected_before_pulling (pstream.take (PyIterable [1; 2]%Z) 0)
  /\ ~ rejected_before_pulling (pstream.skip (PyIterable [1; 2]%Z) 0)
  /\ ~ rejected_before_pulling (pstream.pool (PyIterable [1; 2]%Z) 0).
Proof.
  repeat split; intros (e & Hr & _); discriminate Hr.
Qed.

(** C2, amended. [pool], [skip] and [take] do not validate their integer
    argument: with [n <= 0] none of them raises; [pool] yields the whole
    content as a single group (nothing for an empty source), [skip]
    forwards every element, [take] yields nothing and pulls nothing.
    [step_by] over a synchronous source does reject a step [n <= 0], with
    [ValueError] from [itertools.islice], at the call and before any
    element is pulled. *)
Theorem nonpositive_arguments T (s : pyobj T) (l : list T) (n : Z) :
  contents s = Some l ->
  (n <= 0)%Z ->
  (raised (pstream.pool s n) = None
   /\ yields (pstream.pool s n) = match l with [] => [] | _ => [l] end)
  /\ (raised (pstream.skip s n) = None /\ yields (pstream.skip s n) = l)
  /\ (raised (pstream.take s n) = None
      /\ yields (pstream.take s n) = [] /\ pulled (pstream.take s n) = [])
  /\ (is_async_stream s = false -> pstream.step_by s n = [Raise ValueError]).
Proof.
  intros Hs Hn.
  destruct (@pool_nonpositive T s l n Hs Hn) as (Hpr & Hpy & _).
  destruct (@skip_output T s l n Hs) as (Hsy & _ & Hsr).
  destruct (@take_output T s l n Hs) as (Hty & Htu & Htr).
  assert (R : range_len n = 0%nat) by (unfold range_len; lia).
  rewrite R in *. simpl in *.
  repeat split; try assumption.
  intros Ha. apply step_by_sync_nonpositive; try assumption.
  destruct s; try discriminate; reflexivity.
Qed.

Lemma nonpositive_arguments_witness :
  let s := PyIterable [1; 2; 3]%Z in
  contents s = Some [1; 2; 3]%Z /\ (-1 <= 0)%Z
  /\ yields (pstream.pool s (-1)) = [[1; 2; 3]]%Z
  /\ pstream.step_by s (-1) = [Raise ValueError].
Proof.
  split; [reflexivity|]. split; [lia|].
  destruct (@nonpositive_arguments Z (PyIterable [1; 2; 3]%Z) [1; 2; 3]%Z (-1)%Z)
    as ((_ & Hp) & _ & _ & Hs); [reflexivity | lia |].
  split; [exact Hp | apply Hs; reflexivity].
Defined.

(** ** C5: sort *)

Section SortFacts.
Context {T : Type}.
Variable lt : T -> T -> option bool.

Definition comparable (x y : T) : Prop := lt x y <> None.

(** Every two elements at different positions can be compared. *)
Definition mutually_comparable (l : list T) : Prop :=
  ForallOrdPairs comparable l.

(** [a] may stand before [b]: [b < a] is false. *)
Definition not_after (a b : T) : Prop := lt b a = Some false.

Lemma insort_perm x s s' : insort lt x s = Some s' -> Permutation (x :: s) s'.
Proof.
  revert s'. induction s as [|y s IH]; simpl; intros s' H.
  - injection H as <-. apply Permutation_refl.
  - destruct (lt y x) as [[|]|]; try discriminate.
    + destruct (insort lt x s) as [r|]; try discriminate.
      injection H as <-. eapply perm_trans; [apply perm_swap|].
      apply perm_skip. apply IH. reflexivity.
    + injection H as <-. apply Permutation_refl.
Qed.

Lemma sorted_perm l s : sorted lt l = Some s -> Permutation l s.
Proof.
  revert s. induction l as [|x l IH]; simpl; intros s H.
  - injection H as <-. constructor.
  - destruct (sorted lt l) as [r|]; try discriminate.
    eapply perm_trans; [apply perm_skip, IH; reflexivity|].
    apply insort_perm. assumption.
Qed.

Lemma insort_total x s :
  Forall (fun y => comparable y x) s -> exists s', insort lt x s = Some s'.
Proof.
  induction s as [|y s IH]; simpl; intros H; [eauto|].
  inversion H as [|? ? Hy Hs]; subst.
  unfold comparable in Hy. destruct (lt y x) as [[|]|]; [|eauto|contradiction].
  destruct (IH Hs) as (s' & ->). simpl. eauto.
Qed.

Lemma insort_head x h t s' : insort lt x (h :: t) = Some s' -> comparable h x.
Proof.
  simpl. unfold comparable. destruct (lt h x); [discriminate|discriminate].
Qed.

Hypothesis comparable_sym : forall x y, comparable x y -> comparable y x.
Hypothesis comparable_trans :
  forall x y z, comparable x y -> comparable y z -> comparable x z.

Lemma sorted_total l :
  mutually_comparable l -> exists s, sorted lt l = Some s.
Proof.
  induction l as [|x l IH]; simpl; intros H; [eauto|].
  inversion H as [|? ? Hx Hl]; subst.
  destruct (IH Hl) as (s & E). rewrite E.
  apply insort_total. rewrite Forall_forall in *. intros y Hy.
  apply comparable_sym, Hx.
  eapply Permutation_in; [apply Permutation_sym, sorted_perm|]; eassumption.
Qed.

Lemma sorted_success_comparable l s :
  sorted lt l = Some s -> mutually_comparable l.
Proof.
  revert s. induction l as [|x l IH]; simpl; intros s H; [constructor|].
  destruct (sorted lt l) as [r|] eqn:E; try discriminate.
  specialize (IH r eq_refl). constructor; [|exact IH].
  rewrite Forall_forall. intros y Hy.
  assert (Hyr : In y r) by (eapply Permutation_in; [apply sorted_perm|]; eassumption).
  destruct r as [|h t]; [contradiction|].
  assert (Hhx : comparable h x) by (eapply insort_head; eassumption).
  assert (Hh : In h l).
  { eapply Permutation_in; [apply Permutation_sym, sorted_perm; eassumption|].
    left; reflexivity. }
  destruct (ForallOrdPairs_In IH h y Hh Hy) as [<-|[C|C]].
  - apply comparable_sym. assumption.
  - eapply comparable_trans; [apply comparable_sym|]; eassumption.
  - eapply comparable_trans; [apply comparable_sym; eassumption|].
    apply comparable_sym. assumption.
Qed.

Hypothesis lt_asym : forall x y, lt x y = Some true -> lt y x = Some false.

Lemma insort_sorted x s s' :
  Sorted not_after s -> insort lt x s = Some s' -> Sorted not_after s'.
Proof.
  revert s'. induction s as [|y s IH]; simpl; intros s' Hs H.
  - injection H as <-. repeat constructor.
  - destruct (lt y x) as [[|]|] eqn:Lyx; try discriminate.
    + destruct (insort lt x s) as [r|] eqn:E; try discriminate.
      injection H as <-. inversion Hs as [|? ? Hs' Hd]; subst.
      constructor; [apply IH; auto|].
      destruct s as [|z s]; simpl in E.
      * injection E as <-. constructor. apply lt_asym. assumption.
      * inversion Hd; subst.
        destruct (lt z x) as [[|]|]; try discriminate.
        -- destruct (insort lt x s); try discriminate.
           injection E as <-. constructor. assumption.
        -- injection E as <-. constructor. apply lt_asym. assumption.
    + injection H as <-. constructor; [assumption|]. constructor. assumption.
Qed.

Lemma sorted_sorted l s : sorted lt l = Some s -> Sorted not_after s.
Proof.
  revert s. induction l as [|x l IH]; simpl; intros s H.
  - injection H as <-. constructor.
  - destruct (sorted lt l) as [r|]; try discriminate.
    eapply insort_sorted; [apply IH; reflexivity|eassumption].
Qed.

(** Materialising the source. *)
Lemma collect_loop pull l acc :
  pull_event pull ->
  exists tr, for_items pull (@collect_body T) l acc = (tr, acc ++ l, [], None)
    /\ yields tr = [] /\ pulled tr = l /\ raised tr = None
    /\ In (pull None) tr.
Proof.
  intros Hp. revert acc. induction l as [|x l IH]; intros acc.
  - rewrite app_nil_r. eexists; split; [reflexivity|].
    pick_events; simpl; auto.
  - simpl. destruct (IH (acc ++ [x])) as (tr & E & Hy & Hu & Hr & Hi).
    rewrite E, <- app_assoc. simpl. eexists; split; [reflexivity|].
    pick_events; simpl; rewrite Hy, Hu, Hr; auto.
Qed.

(** Both implementations: first the whole source, then the sort. *)
Lemma sort_trace (s : pyobj T) l :
  contents s = Some l ->
  exists pre,
    pulled pre = l /\ yields pre = [] /\ raised pre = None
    /\ (In (Next 0 None) pre \/ In (ANext 0 None) pre)
    /\ pstream.sort lt s tt
       = pre ++ match sorted lt l with
                | None => [Raise TypeError]
                | Some out => List.map (fun x => Yield x) out
                end.
Proof.
  intros Hs. unfold pstream.sort, factory.
  destruct (coerce_contents s Hs) as [[-> _]|[-> _]];
    cbn [is_async_stream isinstance_AsyncIterator isinstance_AsyncIterable orb].
  - unfold s_sort, iter_.
    destruct (@collect_loop (Next 0) l []) as (tr & E & Hy & Hu & Hr & Hi);
      [auto with events|].
    rewrite E. simpl. destruct (sorted lt l) as [out|].
    + exists (tr ++ [Returned]).
      rewrite pulled_app, yields_app, raised_app_none, <- app_assoc by assumption.
      simpl. rewrite !app_nil_r. repeat split; auto.
      left. apply in_or_app. auto.
    + exists tr. repeat split; auto.
  - unfold a_sort, generator, seq_stmt, async_for_in, for_stmt, aiter_.
    destruct (@collect_loop (ANext 0) l []) as (tr & E & Hy & Hu & Hr & Hi);
      [auto with events|].
    rewrite E. unfold yield_sorted. simpl. exists (Returned :: tr).
    simpl. split; [exact Hu|]. split; [exact Hy|]. split; [exact Hr|].
    split; [right; right; exact Hi|].
    destruct (sorted lt l) as [out|]; unfold finish; simpl;
      rewrite ?app_nil_r; reflexivity.
Qed.
End SortFacts.

(** Python values with their natural ordering: integers compare with
    integers, strings with strings; across the two types, and for
    [None] even with itself, [<] raises [TypeError]. *)
Inductive pyval : Type :=
| PInt (z : Z)
| PStr (s : string)
| PNone.

Definition py_lt (x y : pyval) : option bool :=
  match x, y with
  | PInt a, PInt b => Some (a <? b)%Z
  | PStr a, PStr b => Some (String.ltb a b)
  | _, _ => None
  end.

Lemma py_comparable_sym x y : comparable py_lt x y -> comparable py_lt y x.
Proof. unfold comparable. destruct x, y; simpl; congruence. Qed.

Lemma py_comparable_trans x y z :
  comparable py_lt x y -> comparable py_lt y z -> comparable py_lt x z.
Proof. unfold comparable. destruct x, y, z; simpl; congruence. Qed.

Lemma string_ltb_asym a b : String.ltb a b = true -> String.ltb b a = false.
Proof.
  unfold String.ltb. rewrite (String.compare_antisym a b).
  destruct (String.compare b a); simpl; congruence.
Qed.

Lemma py_lt_asym x y : py_lt x y = Some true -> py_lt y x = Some false.
Proof.
  destruct x as [a|a|], y as [b|b|]; simpl; try discriminate; intros H;
    injection H as H; f_equal.
  - apply Z.ltb_lt in H. apply Z.ltb_ge. lia.
  - apply string_ltb_asym. assumption.
Qed.

(** C5. [sort] over any finite source of Python values: the whole source
    is pulled, up to and including the exhaustion signal, before anything
    else happens.  If the elements are not mutually comparable the run
    then ends with [TypeError] (the comparison error) and nothing is
    yielded; if they are, it yields a permutation of the source in
    ascending order. *)
Theorem sort_drains_then_orders (s : pyobj pyval) (l : list pyval) :
  contents s = Some l ->
  exists pre,
    pulled pre = l /\ yields pre = [] /\ raised pre = None
    /\ (In (Next 0 None) pre \/ In (ANext 0 None) pre)
    /\ (~ mutually_comparable py_lt l ->
        pstream.sort py_lt s tt = pre ++ [Raise TypeError])
    /\ (mutually_comparable py_lt l ->
        exists out,
          pstream.sort py_lt s tt = pre ++ List.map (fun x => Yield x) out
          /\ Permutation l out /\ Sorted (not_after py_lt) out).
Proof.
  intros Hs.
  destruct (@sort_trace pyval py_lt s l Hs) as (pre & Hu & Hy & Hr & Hi & E).
  exists pre. repeat (split; [assumption|]). split.
  - intros N. rewrite E. destruct (sorted py_lt l) as [out|] eqn:S; [|reflexivity].
    exfalso. apply N.
    eapply sorted_success_comparable;
      [exact py_comparable_sym | exact py_comparable_trans | eassumption].
  - intros M.
    destruct (@sorted_total pyval py_lt py_comparable_sym l M) as (out & S).
    exists out. rewrite E, S. split; [reflexivity|]. split.
    + apply (@sorted_perm pyval py_lt l out S).
    + apply (@sorted_sorted pyval py_lt py_lt_asym l out S).
Qed.

Lemma sort_drains_then_orders_witness :
  let l := [PInt 3; PStr "a"; PInt 1] in
  contents (PyAsyncIterable l) = Some l
  /\ exists pre,
      pulled pre = l /\ yields pre = [] /\ raised pre = None
      /\ (In (Next 0 None) pre \/ In (ANext 0 None) pre)
      /\ (~ mutually_comparable py_lt l ->
          pstream.sort py_lt (PyAsyncIterable l) tt = pre ++ [Raise TypeError])
      /\ (mutually_comparable py_lt l ->
          exists out,
            pstream.sort py_lt (PyAsyncIterable l) tt
            = pre ++ List.map (fun x => Yield x) out
            /\ Permutation l out /\ Sorted (not_after py_lt) out).
Proof.
  split; [reflexivity|].
  apply (@sort_drains_then_orders
           (PyAsyncIterable [PInt 3; PStr "a"; PInt 1])
           [PInt 3; PStr "a"; PInt 1]).
  reflexivity.
Defined.

(** ** C7 and C10: zip *)

Section ZipSpec.
Context {T : Type}.

(** The [k]-th element of every list that has one. *)
Definition row (k : nat) (ls : list (list T)) : list T :=
  flat_map (fun l => firstn 1 (skipn k l)) ls.

Fixpoint min_len (ls : list (list T)) : nat :=
  match ls with
  | [] => 0
  | [l] => List.length l
  | l :: ls' => Nat.min (List.length l) (min_len ls')
  end.

(** The tuples as the specification describes them: as many as the
    shortest source has elements, the [k]-th made of the [k]-th element
    of each source, in argument order. *)
Definition zip_spec (ls : list (list T)) : list (list T) :=
  List.map (fun k => row k ls) (seq 0 (min_len ls)).

(** The first [m] rows, taken off the lists one at a time. *)
Fixpoint rows (m : nat) (ls : list (list T)) : list (list T) :=
  match m with
  | O => []
  | S m' => row 0 ls :: rows m' (List.map (@tl T) ls)
  end.

Lemma skipn_tl k (l : list T) : skipn k (tl l) = skipn (S k) l.
Proof. destruct l; simpl; [destruct k|]; reflexivity. Qed.

Lemma row_tl k ls : row k (List.map (@tl T) ls) = row (S k) ls.
Proof.
  unfold row. induction ls as [|l ls IH]; [reflexivity|].
  cbn [List.map flat_map]. rewrite IH, skipn_tl. reflexivity.
Qed.

Lemma zip_spec_rows m ls :
  List.map (fun k => row k ls) (seq 0 m) = rows m ls.
Proof.
  revert ls. induction m as [|m IH]; intros ls; [reflexivity|].
  cbn [seq List.map rows]. f_equal.
  rewrite <- seq_shift, map_map, <- IH.
  apply map_ext. intros k. symmetry. apply row_tl.
Qed.
End ZipSpec.

Section ZipRun.
Context {T : Type}.
Implicit Types (ss : list (pyobj T)) (ls : list (list T)).

Definition cursors ss ls : Prop := Forall2 (@cursor T) ss ls.

Lemma coerce_all_contents streams ls :
  Forall2 (fun s l => contents s = Some l) streams ls ->
  exists ss, coerce_all streams = inr ss /\ cursors ss ls.
Proof.
  induction 1 as [|s l streams ls Hs _ (ss & E & C)]; simpl.
  - exists []. split; [reflexivity|constructor].
  - rewrite E.
    destruct (coerce_contents s Hs) as [[-> _]|[-> _]];
      eexists; (split; [reflexivity|]); constructor; auto;
      [left|right]; reflexivity.
Qed.

Lemma zip_pull_item i s x l :
  cursor s (x :: l) ->
  exists (ev : event T (list T)) s', zip_pull i s = inr (ev, Some x, s') /\ cursor s' l
    /\ pulled [ev] = [x] /\ yields [ev] = [] /\ raised [ev] = None.
Proof.
  intros [-> | ->]; do 2 eexists; (split; [reflexivity|]);
    (split; [(left + right); reflexivity|]); repeat split.
Qed.

Lemma zip_pull_exhausted i s :
  cursor s [] ->
  exists ev : event T (list T), zip_pull i s = inr (ev, None, s)
    /\ pulled [ev] = [] /\ yields [ev] = [] /\ raised [ev] = None.
Proof.
  intros [-> | ->]; eexists; (split; [reflexivity|]); repeat split.
Qed.

(** A round over sources that all have an element left. *)
Lemma zip_round_group i ss ls group :
  cursors ss ls -> Forall (fun l => l <> []) ls ->
  exists tr ss',
    zip_round i ss group = (tr, Group (group ++ row 0 ls), ss')
    /\ cursors ss' (List.map (@tl T) ls)
    /\ pulled tr = row 0 ls /\ yields tr = [] /\ raised tr = None.
Proof.
  intros C. revert i group.
  induction C as [|s l ss ls Hs _ IH]; intros i group N.
  - do 2 eexists. rewrite app_nil_r. split; [reflexivity|].
    split; [constructor|]. repeat split.
  - inversion N as [|? ? Hl Hls]; subst.
    destruct l as [|x l]; [contradiction|].
    destruct (zip_pull_item i Hs) as (ev & s' & E & Cs & Hu & Hy & Hr).
    destruct (IH (S i) (group ++ [x]) Hls) as (tr & ss' & E' & C' & Hu' & Hy' & Hr').
    simpl. rewrite E, E'. do 2 eexists.
    split; [rewrite <- app_assoc; reflexivity|].
    split; [constructor; assumption|].
    change (ev :: tr) with ([ev] ++ tr).
    rewrite pulled_app, yields_app, raised_app_none, Hu, Hy, Hu', Hy'
      by assumption.
    repeat split. assumption.
Qed.

(** A round that meets an exhausted source: the sources before it have
    each given up one element, the others are untouched. *)
Lemma zip_round_stop i ss before after group :
  cursors ss (before ++ [] :: after) -> Forall (fun l => l <> []) before ->
  exists tr ss',
    zip_round i ss group = (tr, Stop, ss')
    /\ cursors ss' (List.map (@tl T) before ++ [] :: after)
    /\ pulled tr = row 0 before /\ yields tr = [] /\ raised tr = None.
Proof.
  revert i ss group. induction before as [|l before IH]; intros i ss group C N.
  - inversion C as [|s ? ss0 ? Hs C0]; subst.
    destruct (zip_pull_exhausted i Hs) as (ev & E & Hu & Hy & Hr).
    simpl. rewrite E. do 2 eexists. split; [reflexivity|].
    split; [constructor; assumption|]. repeat split; assumption.
  - inversion C as [|s ? ss0 ? Hs C0]; subst.
    inversion N as [|? ? Hl Hb]; subst.
    destruct l as [|x l]; [contradiction|].
    destruct (zip_pull_item i Hs) as (ev & s' & E & Cs & Hu & Hy & Hr).
    destruct (IH (S i) ss0 (group ++ [x]) C0 Hb)
      as (tr & ss' & E' & C' & Hu' & Hy' & Hr').
    simpl. rewrite E, E'. do 2 eexists. split; [reflexivity|].
    split; [constructor; assumption|].
    change (ev :: tr) with ([ev] ++ tr).
    rewrite pulled_app, yields_app, raised_app_none, Hu, Hy, Hu', Hy'
      by assumption.
    repeat split. assumption.
Qed.

Lemma Forall_longer_nonempty m ls :
  Forall (fun l => S m <= List.length l) ls -> Forall (fun l => l <> []) ls.
Proof.
  apply Forall_impl. intros l H E. subst. simpl in H. lia.
Qed.

Lemma Forall_tl_length (P : nat -> Prop) ls :
  Forall (fun l => P (List.length (tl l))) ls ->
  Forall (fun l => P (List.length l)) (List.map (@tl T) ls).
Proof. intros H. rewrite Forall_map. exact H. Qed.

(** The loop, when the first shortest source [lj] has [m] elements. *)
Lemma zip_loop_spec m : forall before lj after ss fuel,
  cursors ss (before ++ lj :: after) ->
  List.length lj = m ->
  Forall (fun l => m < List.length l) before ->
  Forall (fun l => m <= List.length l) after ->
  m < fuel ->
  exists complete last final,
    zip_loop fuel ss = Some (complete ++ last, final)
    /\ yields complete = rows m (before ++ lj :: after)
    /\ yields last = [] /\ pulled last = row m before
    /\ raised (complete ++ last) = None
    /\ cursors final (List.map (skipn (S m)) before ++ []
                      :: List.map (skipn m) after).
Proof.
  induction m as [|m IH]; intros before lj after ss fuel C Hj Hb Ha Hf.
  - destruct lj; [|discriminate]. destruct fuel as [|fuel]; [lia|].
    destruct (@zip_round_stop 0 ss before after [] C) as (tr & ss' & E & C' & Hu & Hy & Hr).
    { eapply Forall_longer_nonempty. exact Hb. }
    simpl. rewrite E. exists [], tr, ss'. simpl.
    repeat split; try assumption.
    rewrite map_id. exact C'.
  - destruct fuel as [|fuel]; [lia|].
    destruct (@zip_round_group 0 ss (before ++ lj :: after) [] C)
      as (tr & ss' & E & C' & Hu & Hy & Hr).
    { apply Forall_app. split.
      - apply (@Forall_longer_nonempty m). eapply Forall_impl; [|exact Hb].
        simpl. intros; lia.
      - constructor; [intros ->; discriminate|].
        eapply Forall_longer_nonempty. exact Ha. }
    rewrite map_app in C'. simpl in C'.
    destruct (IH (List.map (@tl T) before) (tl lj) (List.map (@tl T) after)
                 ss' fuel C') as (complete & last & final & E' & Hy' & Hl & Hu' & Hr' & Cf).
    { destruct lj; simpl in *; lia. }
    { apply Forall_tl_length. eapply Forall_impl; [|exact Hb].
      intros l H. destruct l; simpl in *; lia. }
    { apply Forall_tl_length. eapply Forall_impl; [|exact Ha].
      intros l H. destruct l; simpl in *; lia. }
    { lia. }
    rewrite !map_map in Cf.
    rewrite (map_ext _ _ (skipn_tl (S m))), (map_ext _ _ (skipn_tl m)) in Cf.
    cbn [zip_loop]. rewrite E. cbv beta iota. rewrite E'. cbv beta iota.
    exists (tr ++ Yield (row 0 (before ++ lj :: after)) :: complete), last, final.
    split; [rewrite <- app_assoc; reflexivity|].
    split.
    { rewrite yields_app, Hy. cbn [yields rows app]. rewrite Hy', map_app.
      reflexivity. }
    split; [assumption|]. split; [rewrite Hu'; apply row_tl|].
    split; [|exact Cf].
    rewrite <- app_assoc. rewrite raised_app_none by assumption.
    exact Hr'.
Qed.
End ZipRun.

Section ZipShortest.
Context {T : Type}.
Implicit Types (ls : list (list T)).

Lemma min_len_ge m ls :
  ls <> [] -> Forall (fun l => m <= List.length l) ls -> m <= min_len ls.
Proof.
  induction ls as [|l ls IH]; intros N H; [contradiction|].
  inversion H as [|? ? Hl Hls]; subst.
  destruct ls as [|l2 ls']; [exact Hl|].
  change (m <= Nat.min (List.length l) (min_len (l2 :: ls'))).
  assert (m <= min_len (l2 :: ls')) by (apply IH; [discriminate|assumption]).
  lia.
Qed.

(** [min_len] is the length of any source no other source is shorter
    than. *)
Lemma min_len_char m ls :
  Forall (fun l => m <= List.length l) ls ->
  Exists (fun l => List.length l = m) ls ->
  min_len ls = m.
Proof.
  induction ls as [|l ls IH]; intros H X; [inversion X|].
  inversion H as [|? ? Hl Hls]; subst.
  destruct ls as [|l2 ls'].
  - apply Exists_cons in X. destruct X as [E|E]; [exact E|inversion E].
  - change (Nat.min (List.length l) (min_len (l2 :: ls')) = m).
    apply Exists_cons in X. destruct X as [E|E].
    + assert (m <= min_len (l2 :: ls'))
        by (apply min_len_ge; [discriminate|assumption]).
      lia.
    + rewrite (IH Hls E). lia.
Qed.

Lemma min_len_first_shortest
    (before : list (list T)) (lj : list T) (after : list (list T)) :
  Forall (fun l => List.length lj < List.length l) before ->
  Forall (fun l => List.length lj <= List.length l) after ->
  min_len (before ++ lj :: after) = List.length lj.
Proof.
  intros Hb Ha. apply min_len_char.
  - apply Forall_app. split.
    + eapply Forall_impl; [|exact Hb]. simpl. intros; lia.
    + constructor; [lia|assumption].
  - apply Exists_app. right. left. reflexivity.
Qed.

(** Every non-empty tuple of sources has a first shortest one. *)
Lemma first_shortest ls :
  ls <> [] ->
  exists before lj after,
    ls = before ++ lj :: after
    /\ Forall (fun l => List.length lj < List.length l) before
    /\ Forall (fun l => List.length lj <= List.length l) after.
Proof.
  induction ls as [|l ls IH]; intros N; [contradiction|].
  destruct ls as [|l2 ls'].
  - exists [], l, []. repeat split; constructor.
  - destruct IH as (before & lj & after & E & Hb & Ha); [discriminate|].
    destruct (le_lt_dec (List.length l) (List.length lj)) as [Le|Gt].
    + exists [], l, (l2 :: ls'). split; [reflexivity|]. split; [constructor|].
      rewrite E. apply Forall_app. split.
      * eapply Forall_impl; [|exact Hb]. simpl. intros; lia.
      * constructor; [lia|]. eapply Forall_impl; [|exact Ha].
        simpl. intros; lia.
    + exists (l :: before), lj, after. rewrite E. split; [reflexivity|].
      split; [constructor; assumption|assumption].
Qed.

Lemma row_item k (l : list T) :
  k < List.length l ->
  exists x, firstn 1 (skipn k l) = [x] /\ nth_error l k = Some x.
Proof.
  revert l. induction k as [|k IH]; intros [|y l] H; simpl in H; try lia.
  - exists y. split; reflexivity.
  - destruct (IH l) as (x & E & N); [lia|]. exists x. split; assumption.
Qed.

(** The [k]-th row holds the [k]-th element of each source, in argument
    order. *)
Lemma row_columns k ls :
  Forall (fun l => k < List.length l) ls ->
  Forall2 (fun l x => nth_error l k = Some x) ls (row k ls).
Proof.
  induction 1 as [|l ls Hl _ IH]; [constructor|].
  destruct (row_item l Hl) as (x & E & N).
  unfold row. cbn [flat_map]. rewrite E. constructor; assumption.
Qed.

Lemma nth_error_map_seq (A : Type) (f : nat -> A) m s k v :
  nth_error (List.map f (seq s m)) k = Some v -> k < m /\ v = f (s + k).
Proof.
  revert s k. induction m as [|m IH]; intros s k H.
  - destruct k; discriminate.
  - destruct k as [|k]; simpl in H.
    + injection H as <-. rewrite Nat.add_0_r. split; [lia|reflexivity].
    + destruct (IH (S s) k H) as (Hk & ->). split; [lia|].
      f_equal. lia.
Qed.

Lemma zip_output (streams : list (pyobj T)) ls fuel :
  streams <> [] ->
  Forall2 (fun s l => contents s = Some l) streams ls ->
  min_len ls < fuel ->
  exists tr,
    pstream.zip fuel streams = Some tr /\ raised tr = None
    /\ yields tr = zip_spec ls.
Proof.
  intros N H Hf.
  assert (Nl : ls <> []) by (inversion H; subst; [contradiction|discriminate]).
  destruct (first_shortest Nl) as (before & lj & after & -> & Hb & Ha).
  rewrite (@min_len_first_shortest before lj after Hb Ha) in Hf.
  destruct (coerce_all_contents H) as (ss & Ec & C).
  destruct (@zip_loop_spec T (List.length lj) before lj after ss fuel C eq_refl Hb Ha Hf)
    as (complete & last & final & E & Hy & Hl & _ & Hr & _).
  unfold pstream.zip, zip_run. rewrite Ec, E. simpl.
  eexists. split; [reflexivity|]. split; [exact Hr|].
  cbn [yields]. rewrite yields_app, Hy, Hl, app_nil_r. unfold zip_spec.
  rewrite zip_spec_rows, (@min_len_first_shortest before lj after Hb Ha). reflexivity.
Qed.
End ZipShortest.

(** C7. [zip] over a non-empty tuple of finite sources, given fuel for one
    round more than the shortest source has elements: it ends without
    error after yielding exactly as many tuples as the shortest source has
    elements, however many the others still hold; the [k]-th tuple holds
    the [k]-th element of each source, in argument order.  With sources of
    3 and 5 elements it yields exactly 3 tuples. *)
Theorem zip_shortest_wins T (streams : list (pyobj T)) (ls : list (list T))
    (fuel : nat) :
  streams <> [] ->
  Forall2 (fun s l => contents s = Some l) streams ls ->
  min_len ls < fuel ->
  (exists tr,
      pstream.zip fuel streams = Some tr /\ raised tr = None
      /\ yields tr = zip_spec ls
      /\ List.length (yields tr) = min_len ls
      /\ (forall k tuple,
             nth_error (yields tr) k = Some tuple ->
             Forall2 (fun l x => nth_error l k = Some x) ls tuple))
  /\ (forall a b : list T,
         List.length a = 3 -> List.length b = 5 ->
         exists tr,
           pstream.zip 4 [PyIterable a; PyIterable b] = Some tr
           /\ List.length (yields tr) = 3).
Proof.
  intros N H Hf. split.
  - destruct (zip_output N H Hf) as (tr & E & Hr & Hy).
    exists tr. repeat (split; [assumption|]). split.
    + rewrite Hy. unfold zip_spec. rewrite length_map, length_seq. reflexivity.
    + intros k tuple Hk. rewrite Hy in Hk. unfold zip_spec in Hk.
      apply nth_error_map_seq in Hk. destruct Hk as (Hk & ->). simpl.
      apply row_columns.
      assert (Nl : ls <> []) by (inversion H; subst; [contradiction|discriminate]).
      destruct (first_shortest Nl) as (before & lj & after & -> & Hb & Ha).
      rewrite (@min_len_first_shortest T before lj after Hb Ha) in Hk.
      apply Forall_app. split.
      * eapply Forall_impl; [|exact Hb]. simpl. intros; lia.
      * constructor; [lia|]. eapply Forall_impl; [|exact Ha].
        simpl. intros; lia.
  - intros a b La Lb.
    destruct (@zip_output T [PyIterable a; PyIterable b] [a; b] 4)
      as (tr & E & _ & Hy).
    + discriminate.
    + repeat constructor.
    + simpl. rewrite La, Lb. simpl. lia.
    + exists tr. split; [exact E|]. rewrite Hy. unfold zip_spec.
      rewrite length_map, length_seq. simpl. rewrite La, Lb. reflexivity.
Qed.

Lemma zip_shortest_wins_witness :
  let streams := [PyIterable [1; 2; 3]; PyAsyncIterator [10; 20; 30; 40; 50]]%Z in
  let ls := [[1; 2; 3]; [10; 20; 30; 40; 50]]%Z in
  streams <> [] /\ Forall2 (fun s l => contents s = Some l) streams ls
  /\ min_len ls < 4
  /\ exists tr,
      pstream.zip 4 streams = Some tr /\ raised tr = None
      /\ yields tr = zip_spec ls
      /\ List.length (yields tr) = min_len ls
      /\ (forall k tuple,
             nth_error (yields tr) k = Some tuple ->
             Forall2 (fun l x => nth_error l k = Some x) ls tuple).
Proof.
  split; [discriminate|]. split; [repeat constructor|]. split; [simpl; lia|].
  apply (@zip_shortest_wins Z
           [PyIterable [1; 2; 3]; PyAsyncIterator [10; 20; 30; 40; 50]]%Z
           [[1; 2; 3]; [10; 20; 30; 40; 50]]%Z 4).
  - discriminate.
  - repeat constructor.
  - simpl; lia.
Defined.

(** C10. When [lj] is the first shortest source, the round in which it
    turns out exhausted has already pulled one element from each source
    before it: those elements are in no tuple (every tuple comes from an
    earlier, complete round) and the cursors do not get them back, so each
    source before [lj] ends one element further than the tuples account
    for, while [lj] and the sources after it lose only what the tuples
    hold. *)
Theorem zip_discards_partial_round T (streams : list (pyobj T))
    (before : list (list T)) (lj : list T) (after : list (list T))
    (fuel : nat) :
  Forall2 (fun s l => contents s = Some l) streams (before ++ lj :: after) ->
  Forall (fun l => List.length lj < List.length l) before ->
  Forall (fun l => List.length lj <= List.length l) after ->
  List.length lj < fuel ->
  exists complete last final,
    zip_run fuel streams = Some (Returned :: complete ++ last, final)
    /\ yields complete = zip_spec (before ++ lj :: after)
    /\ yields last = []
    /\ pulled last = row (List.length lj) before
    /\ Forall2 (fun l x => nth_error l (List.length lj) = Some x)
               before (pulled last)
    /\ cursors final (List.map (skipn (S (List.length lj))) before
                      ++ [] :: List.map (skipn (List.length lj)) after).
Proof.
  intros H Hb Ha Hf.
  destruct (coerce_all_contents H) as (ss & Ec & C).
  destruct (@zip_loop_spec T (List.length lj) before lj after ss fuel C eq_refl Hb Ha Hf)
    as (complete & last & final & E & Hy & Hl & Hu & Hr & Cf).
  unfold zip_run. rewrite Ec, E.
  exists complete, last, final. split; [reflexivity|].
  split.
  { rewrite Hy. unfold zip_spec.
    rewrite zip_spec_rows, (@min_len_first_shortest T before lj after Hb Ha). reflexivity. }
  split; [assumption|]. split; [assumption|]. split; [|assumption].
  rewrite Hu. apply row_columns. assumption.
Qed.

Lemma zip_discards_partial_round_witness :
  let streams := [PyIterator [1; 2; 3]; PyIterable [10]; PyAsyncIterable [7; 8]]%Z in
  exists complete last final,
    zip_run 2 streams = Some (Returned :: complete ++ last, final)
    /\ yields complete = zip_spec [[1; 2; 3]; [10]; [7; 8]]%Z
    /\ yields last = []
    /\ pulled last = row 1 [[1; 2; 3]]%Z
    /\ Forall2 (fun l x => nth_error l 1 = Some x) [[1; 2; 3]]%Z (pulled last)
    /\ cursors final [[3]; []; [8]]%Z.
Proof.
  apply (@zip_discards_partial_round Z
           [PyIterator [1; 2; 3]; PyIterable [10]; PyAsyncIterable [7; 8]]%Z
           [[1; 2; 3]]%Z [10]%Z [[7; 8]]%Z 2).
  - repeat constructor.
  - repeat constructor.
  - repeat constructor.
  - simpl; lia.
Defined.

(** * Further properties of the operators *)

(** ** Coercion *)

(** X1. Whatever [coerce] accepts it turns into a pull cursor of the same
    content and the same synchrony, and coercing the result again changes
    nothing. *)
Theorem coerce_idempotent T (s s' : pyobj T) :
  coerce s = inr s' ->
  coerce s' = inr s'
  /\ is_async_stream s' = is_async_stream s
  /\ contents s' = contents s
  /\ exists l, cursor s' l.
Proof.
  destruct s; cbv; intros H; try discriminate; injection H as <-;
    repeat split; eauto.
Qed.

Lemma coerce_idempotent_witness :
  coerce (PyIterable [1; 2]%Z) = inr (PyIterator [1; 2]%Z)
  /\ coerce (PyIterator [1; 2]%Z) = inr (PyIterator [1; 2]%Z).
Proof.
  split; [reflexivity|].
  apply (@coerce_idempotent Z (PyIterable [1; 2]%Z) (PyIterator [1; 2]%Z)).
  reflexivity.
Defined.

(** ** Loops whose body keeps no state and never leaves *)

Lemma for_items_stateless T V L (pull : option T -> event T V)
    (ev : T -> trace T V) (l : list T) (st : L) :
  for_items pull (fun x st => (ev x, st, Continue)) l st
  = (flat_map (fun x => pull (Some x) :: ev x) l ++ [pull None], st, [], None).
Proof.
  induction l as [|x l IH]; [reflexivity|].
  cbn [for_items flat_map]. rewrite IH, <- app_assoc. reflexivity.
Qed.

Lemma filter_split T (p : T -> bool) (l : list T) :
  Permutation (List.filter p l ++ List.filter (fun x => negb (p x)) l) l.
Proof.
  induction l as [|x l IH]; simpl; [constructor|].
  destruct (p x); simpl.
  - constructor. exact IH.
  - apply Permutation_sym. apply Permutation_cons_app.
    apply Permutation_sym. exact IH.
Qed.

(** X2. [filter] yields exactly the elements the predicate accepts and
    [filter_false] exactly those it rejects, both in source order, so the
    two outputs split the source: together they are a rearrangement of
    it, and no element is in both. *)
Theorem filter_partitions T (f : pyfun T bool) (s : pyobj T) (l : list T) :
  contents s = Some l ->
  yields (pstream.filter f s) = List.filter (run f) l
  /\ yields (pstream.filter_false f s) = List.filter (fun x => negb (run f x)) l
  /\ Permutation (yields (pstream.filter f s) ++ yields (pstream.filter_false f s)) l
  /\ (forall x, In x (yields (pstream.filter f s)) -> run f x = true)
  /\ (forall x, In x (yields (pstream.filter_false f s)) -> run f x = false).
Proof.
  intros Hs.
  rewrite (filter_output f s Hs), (filter_false_output f s Hs).
  repeat split.
  - apply filter_split.
  - intros x Hx. apply filter_In in Hx. tauto.
  - intros x Hx. apply filter_In in Hx. destruct Hx as (_ & Hx).
    apply negb_true_iff. exact Hx.
Qed.

Lemma filter_partitions_witness :
  let s := PyAsyncIterable [1; 2; 3; 4]%Z in
  contents s = Some [1; 2; 3; 4]%Z
  /\ yields (pstream.filter (Def Z.even) s) = [2; 4]%Z
  /\ yields (pstream.filter_false (Def Z.even) s) = [1; 3]%Z.
Proof.
  split; [reflexivity|].
  destruct (@filter_partitions Z (Def Z.even) (PyAsyncIterable [1; 2; 3; 4]%Z)
              [1; 2; 3; 4]%Z eq_refl) as (H1 & H2 & _).
  split; [exact H1 | exact H2].
Defined.

(** X3. [map] is lazy and applies the function once per element, in
    order: its run is, for each element of the source in turn, one pull,
    one application and the yield of the result, and then the pull that
    finds the source exhausted. *)
Theorem map_one_pull_per_output T U (f : pyfun T U) (s : pyobj T) (l : list T) :
  contents s = Some l ->
  exists pull call,
    pull_event pull /\ call_event call
    /\ pstream.map f s
       = Returned
         :: flat_map (fun x => [pull (Some x); call x; Yield (run f x)]) l
         ++ [pull None].
Proof.
  intros Hs. open_source s Hs; destruct f as [g|g]; open_dispatch;
    unfold map_body; rewrite for_items_stateless;
    do 2 eexists; (split; [|split; [|unfold finish; rewrite app_nil_r; reflexivity]]);
    auto with events.
Qed.

Lemma map_one_pull_per_output_witness :
  exists pull call,
    pull_event pull /\ call_event call
    /\ pstream.map (AsyncDef Z.succ) (PyIterable [1; 2]%Z)
       = Returned
         :: flat_map (fun x => [pull (Some x); call x; Yield (Z.succ x)]) [1; 2]%Z
         ++ [pull None].
Proof.
  apply (@map_one_pull_per_output Z Z (AsyncDef Z.succ) (PyIterable [1; 2]%Z)
           [1; 2]%Z).
  reflexivity.
Defined.

(** X4. [inspect] applies the function to an element after pulling it and
    before yielding it, and yields the element itself, whatever the
    function returns. *)
Theorem inspect_calls_before_yield T B (f : pyfun T B) (s : pyobj T) (l : list T) :
  contents s = Some l ->
  exists pull call,
    pull_event pull /\ call_event call
    /\ pstream.inspect f s
       = Returned
         :: flat_map (fun x => [pull (Some x); call x; Yield x]) l
         ++ [pull None].
Proof.
  intros Hs. open_source s Hs; destruct f as [g|g]; open_dispatch;
    unfold inspect_body; rewrite for_items_stateless;
    do 2 eexists; (split; [|split; [|unfold finish; rewrite app_nil_r; reflexivity]]);
    auto with events.
Qed.

Lemma inspect_calls_before_yield_witness :
  exists pull call,
    pull_event pull /\ call_event call
    /\ pstream.inspect (Def Z.succ) (PyAsyncIterator [1; 2]%Z)
       = Returned
         :: flat_map (fun x => [pull (Some x); call x; Yield x]) [1; 2]%Z
         ++ [pull None].
Proof.
  apply (@inspect_calls_before_yield Z Z (Def Z.succ) (PyAsyncIterator [1; 2]%Z)
           [1; 2]%Z).
  reflexivity.
Defined.

(** X5. [for_each] applies the function to every element in order and
    yields one [None] per element, after the application, never the
    element. *)
Theorem for_each_yields_none T B (f : pyfun T B) (s : pyobj T) (l : list T) :
  contents s = Some l ->
  exists pull call,
    pull_event pull /\ call_event call
    /\ pstream.for_each f s
       = Returned
         :: flat_map (fun x => [pull (Some x); call x; Yield tt]) l
         ++ [pull None].
Proof.
  intros Hs. open_source s Hs; destruct f as [g|g]; open_dispatch;
    unfold for_each_body; rewrite for_items_stateless;
    do 2 eexists; (split; [|split; [|unfold finish; rewrite app_nil_r; reflexivity]]);
    auto with events.
Qed.

Lemma for_each_yields_none_witness :
  exists pull call,
    pull_event pull /\ call_event call
    /\ pstream.for_each (Def Z.succ) (PyIterable [1; 2]%Z)
       = Returned
         :: flat_map (fun x => [pull (Some x); call x; Yield tt]) [1; 2]%Z
         ++ [pull None].
Proof.
  apply (@for_each_yields_none Z Z (Def Z.succ) (PyIterable [1; 2]%Z) [1; 2]%Z).
  reflexivity.
Defined.

(** ** take_while and skip_while *)

Lemma take_drop_while T (p : T -> bool) (l : list T) :
  take_while_list p l ++ drop_while_list p l = l.
Proof.
  induction l as [|x l IH]; simpl; [reflexivity|].
  destruct (p x); simpl; [rewrite IH|]; reflexivity.
Qed.

Lemma take_while_list_all T (p : T -> bool) (l : list T) :
  Forall (fun x => p x = true) (take_while_list p l).
Proof.
  induction l as [|x l IH]; simpl; [constructor|].
  destruct (p x) eqn:E; constructor; assumption.
Qed.

Lemma drop_while_list_head T (p : T -> bool) (l : list T) x :
  In x (firstn 1 (drop_while_list p l)) -> p x = false.
Proof.
  induction l as [|y l IH]; simpl; [tauto|].
  destruct (p y) eqn:E; [exact IH|]. simpl. intros [<-|[]]. exact E.
Qed.

(** The loop of [take_while], with what it takes from the source. *)
Lemma take_while_loop_pulls T pull call (f : pyfun T bool) l :
  pull_event pull -> call_event call ->
  exists tr : trace T T,
    for_items pull (take_while_body call f) l tt
    = (tr, tt, tl (drop_while_list (run f) l), None)
    /\ yields tr = take_while_list (run f) l
    /\ pulled tr = take_while_list (run f) l ++ firstn 1 (drop_while_list (run f) l)
    /\ calls tr = pulled tr.
Proof.
  intros Hp Hc. induction l as [|x l (tr & E & Hy & Hu & Hk)].
  - eexists; split; [reflexivity|]. pick_events; repeat split.
  - simpl. unfold take_while_body at 1. destruct (run f x).
    + rewrite E. eexists; split; [reflexivity|].
      pick_events; simpl; rewrite Hy, Hk, Hu; repeat split.
    + eexists; split; [reflexivity|]. pick_events; repeat split.
Qed.

(** X6. [take_while] yields the longest leading run the predicate
    accepts and stops for good at the first element it rejects.  That
    element is not yielded, but it has been pulled: an iterator handed to
    [take_while] loses it.  The predicate is applied to exactly the
    elements pulled, and nothing after the rejected element is touched. *)
Theorem take_while_consumes_rejected T (f : pyfun T bool) (s : pyobj T)
    (l : list T) :
  contents s = Some l ->
  yields (pstream.take_while f s) = take_while_list (run f) l
  /\ Forall (fun x => run f x = true) (yields (pstream.take_while f s))
  /\ pulled (pstream.take_while f s)
     = yields (pstream.take_while f s) ++ firstn 1 (drop_while_list (run f) l)
  /\ calls (pstream.take_while f s) = pulled (pstream.take_while f s)
  /\ (forall x, In x (firstn 1 (drop_while_list (run f) l)) -> run f x = false).
Proof.
  intros Hs.
  assert (H : yields (pstream.take_while f s) = take_while_list (run f) l
              /\ pulled (pstream.take_while f s)
                 = take_while_list (run f) l ++ firstn 1 (drop_while_list (run f) l)
              /\ calls (pstream.take_while f s) = pulled (pstream.take_while f s)).
  { open_source s Hs; destruct f as [g|g]; open_dispatch;
      match goal with
      | |- context [for_items ?p (take_while_body ?c ?f) ?l tt] =>
          destruct (@take_while_loop_pulls _ p c f l) as (tr & E & Hy & Hu & Hk);
          [auto with events ..|]
      end;
      rewrite E; simpl; unfold finish; rewrite app_nil_r; auto. }
  destruct H as (Hy & Hu & Hk). rewrite Hk, Hu, Hy.
  repeat split.
  - apply take_while_list_all.
  - apply drop_while_list_head.
Qed.

Lemma take_while_consumes_rejected_witness :
  let s := PyIterator [2; 4; 5; 6]%Z in
  contents s = Some [2; 4; 5; 6]%Z
  /\ yields (pstream.take_while (Def Z.even) s) = [2; 4]%Z
  /\ pulled (pstream.take_while (Def Z.even) s) = [2; 4; 5]%Z.
Proof.
  split; [reflexivity|].
  destruct (@take_while_consumes_rejected Z (Def Z.even)
              (PyIterator [2; 4; 5; 6]%Z) [2; 4; 5; 6]%Z eq_refl)
    as (Hy & _ & Hu & _).
  split; [exact Hy|]. rewrite Hu, Hy. reflexivity.
Defined.

(** X7. On pull cursors [take_while] and [skip_while] with the same
    predicate split the source at the first rejected element: the output
    of the one followed by the output of the other, each run on its own
    cursor over the same data, is the source. *)
Theorem take_while_skip_while_split T (f : pyfun T bool) (s1 s2 : pyobj T)
    (l : list T) :
  cursor s1 l -> cursor s2 l ->
  yields (pstream.take_while f s1) ++ yields (pstream.skip_while f s2) = l.
Proof.
  intros H1 H2.
  assert (C1 : contents s1 = Some l) by (destruct H1 as [-> | ->]; reflexivity).
  rewrite (take_while_output f s1 C1).
  destruct (skip_while_on_cursor f H2) as (-> & _).
  apply take_drop_while.
Qed.

Lemma take_while_skip_while_split_witness :
  yields (pstream.take_while (AsyncDef Z.even) (PyIterator [2; 4; 5; 6]%Z))
  ++ yields (pstream.skip_while (AsyncDef Z.even) (PyAsyncIterator [2; 4; 5; 6]%Z))
  = [2; 4; 5; 6]%Z.
Proof.
  apply (@take_while_skip_while_split Z (AsyncDef Z.even)
           (PyIterator [2; 4; 5; 6]%Z) (PyAsyncIterator [2; 4; 5; 6]%Z)
           [2; 4; 5; 6]%Z).
  - left; reflexivity.
  - right; reflexivity.
Defined.

(** X8. With a plain predicate and a synchronous source, container or
    iterator, [skip_while] is [itertools.dropwhile]: it takes one iterator
    from the source, drops the leading run the predicate accepts and
    forwards the rest, and the predicate is not applied after the first
    rejected element. *)
Theorem skip_while_plain_sync T (p : T -> bool) (s : pyobj T) (l : list T) :
  contents s = Some l ->
  is_async_stream s = false ->
  yields (pstream.skip_while (Def p) s) = drop_while_list p l
  /\ calls (pstream.skip_while (Def p) s)
     = take_while_list p l ++ firstn 1 (drop_while_list p l).
Proof.
  intros Hs Ha. open_source s Hs; try discriminate Ha; open_dispatch;
    loop_fact L; destruct L as (tr & st & E & Hy & Hk); close_loop E;
    split; assumption.
Qed.

Lemma skip_while_plain_sync_witness :
  yields (pstream.skip_while (Def Z.even) (PyIterable [2; 4; 5; 6]%Z)) = [5; 6]%Z
  /\ calls (pstream.skip_while (Def Z.even) (PyIterable [2; 4; 5; 6]%Z))
     = [2; 4; 5]%Z.
Proof.
  apply (@skip_while_plain_sync Z Z.even (PyIterable [2; 4; 5; 6]%Z)
           [2; 4; 5; 6]%Z); reflexivity.
Defined.

(** ** distinct_with and distinct *)

Lemma first_by_key_keys T K (key_eq_dec : forall a b : K, {a = b} + {a <> b})
    (key : T -> K) seen l :
  List.map key (first_by_key key_eq_dec key seen l)
  = first_by_key key_eq_dec (fun k => k) seen (List.map key l).
Proof.
  revert seen. induction l as [|x l IH]; intros seen; simpl; [reflexivity|].
  destruct (seen_mem key_eq_dec (key x) seen); simpl; rewrite IH; reflexivity.
Qed.

Lemma first_by_key_sub T K (key_eq_dec : forall a b : K, {a = b} + {a <> b})
    (key : T -> K) seen l x :
  In x (first_by_key key_eq_dec key seen l) -> In x l.
Proof.
  revert seen. induction l as [|y l IH]; intros seen; simpl; [tauto|].
  destruct (seen_mem key_eq_dec (key y) seen); simpl.
  - intros H. right. eapply IH. exact H.
  - intros [->|H]; [left; reflexivity|]. right. eapply IH. exact H.
Qed.

(** X9. [distinct_with] yields, in source order, the first element of
    each key: no two yielded elements have the same key, every key of
    the source is the key of a yielded element, and every yielded element
    is from the source. *)
Theorem distinct_with_one_per_key T K
    (key_eq_dec : forall a b : K, {a = b} + {a <> b})
    (f : pyfun T K) (s : pyobj T) (l : list T) :
  contents s = Some l ->
  yields (pstream.distinct_with key_eq_dec f s)
  = first_by_key key_eq_dec (run f) [] l
  /\ NoDup (List.map (run f) (yields (pstream.distinct_with key_eq_dec f s)))
  /\ (forall k, In k (List.map (run f) (yields (pstream.distinct_with key_eq_dec f s)))
                <-> In k (List.map (run f) l))
  /\ (forall x, In x (yields (pstream.distinct_with key_eq_dec f s)) -> In x l).
Proof.
  intros Hs. rewrite (distinct_with_output key_eq_dec f s Hs).
  rewrite first_by_key_keys. repeat split.
  - apply NoDup_first_keys.
  - intros H. apply in_first_keys in H. tauto.
  - intros H. apply in_first_keys. simpl. tauto.
  - intros x. apply first_by_key_sub.
Qed.

Lemma distinct_with_one_per_key_witness :
  yields (pstream.distinct_with Z.eq_dec (Def (fun x => x mod 3)%Z)
            (PyIterable [1; 4; 2; 5; 3]%Z))
  = first_by_key Z.eq_dec (fun x => x mod 3)%Z [] [1; 4; 2; 5; 3]%Z.
Proof.
  apply (@distinct_with_one_per_key Z Z Z.eq_dec (Def (fun x => x mod 3)%Z)
           (PyIterable [1; 4; 2; 5; 3]%Z) [1; 4; 2; 5; 3]%Z).
  reflexivity.
Defined.

Lemma distinct_loop T (eq_dec : forall a b : T, {a = b} + {a <> b})
    pull l seen :
  pull_event pull ->
  exists (tr : trace T T) seen',
    for_items pull (distinct_body eq_dec) l seen = (tr, seen', [], None)
    /\ yields tr = first_by_key eq_dec (fun x => x) seen l
    /\ pulled tr = l /\ raised tr = None.
Proof.
  intros Hp. revert seen. induction l as [|x l IH]; intros seen.
  - do 2 eexists; split; [reflexivity|]. pick_events; repeat split.
  - simpl. unfold distinct_body at 1.
    destruct (seen_mem eq_dec x seen).
    + destruct (IH seen) as (tr & seen' & E & Hy & Hu & Hr). rewrite E.
      do 2 eexists; split; [reflexivity|].
      pick_events; simpl; rewrite Hy, Hu, Hr; repeat split.
    + destruct (IH (x :: seen)) as (tr & seen' & E & Hy & Hu & Hr). rewrite E.
      do 2 eexists; split; [reflexivity|].
      pick_events; simpl; rewrite Hy, Hu, Hr; repeat split.
Qed.

(** X10. [distinct] yields each value at its first occurrence and never
    again: the output has no duplicates, holds exactly the values of the
    source, in the order in which they first appear, and the whole
    source is pulled, one element at a time. *)
Theorem distinct_first_occurrences T
    (eq_dec : forall a b : T, {a = b} + {a <> b})
    (s : pyobj T) (l : list T) :
  contents s = Some l ->
  yields (pstream.distinct eq_dec s tt) = first_seen eq_dec l
  /\ NoDup (yields (pstream.distinct eq_dec s tt))
  /\ (forall x, In x (yields (pstream.distinct eq_dec s tt)) <-> In x l)
  /\ pulled (pstream.distinct eq_dec s tt) = l
  /\ raised (pstream.distinct eq_dec s tt) = None.
Proof.
  intros Hs.
  assert (H : yields (pstream.distinct eq_dec s tt) = first_seen eq_dec l
              /\ pulled (pstream.distinct eq_dec s tt) = l
              /\ raised (pstream.distinct eq_dec s tt) = None).
  { unfold pstream.distinct, factory.
    destruct (coerce_contents s Hs) as [[-> _]|[-> _]];
      cbn [is_async_stream isinstance_AsyncIterator isinstance_AsyncIterable orb];
      unfold s_distinct, a_distinct, generator, for_in, async_for_in, for_stmt,
        iter_, aiter_;
      match goal with
      | |- context [for_items ?p (distinct_body ?d) ?l ?seen] =>
          destruct (@distinct_loop _ d p l seen) as (tr & seen' & E & Hy & Hu & Hr);
          [auto with events|]
      end;
      rewrite E; unfold finish; rewrite app_nil_r; simpl; auto. }
  destruct H as (Hy & Hu & Hr). rewrite Hy.
  repeat split; try assumption.
  - apply NoDup_first_seen.
  - apply in_first_seen.
  - apply in_first_seen.
Qed.

Lemma distinct_first_occurrences_witness :
  yields (pstream.distinct Z.eq_dec (PyIterable [1; 2; 1; 3; 2]%Z) tt)
  = first_seen Z.eq_dec [1; 2; 1; 3; 2]%Z
  /\ first_seen Z.eq_dec [1; 2; 1; 3; 2]%Z = [1; 2; 3]%Z.
Proof.
  split; [|reflexivity].
  apply (@distinct_first_occurrences Z Z.eq_dec (PyIterable [1; 2; 1; 3; 2]%Z)
           [1; 2; 1; 3; 2]%Z).
  reflexivity.
Defined.

(** ** reverse *)

(** X11. [reverse] pulls the whole source before it yields anything, then
    yields the elements last to first; reversing its output gives the
    source back. *)
Theorem reverse_drains_then_reverses T (s : pyobj T) (l : list T) :
  contents s = Some l ->
  (exists drain,
      pstream.reverse s tt
      = Returned :: drain ++ List.map (fun x => Yield x) (rev l)
      /\ pulled drain = l /\ yields drain = [] /\ raised drain = None)
  /\ yields (pstream.reverse s tt) = rev l
  /\ yields (pstream.reverse (PyIterable (yields (pstream.reverse s tt))) tt) = l.
Proof.
  assert (G : forall (s : pyobj T) l, contents s = Some l ->
    exists drain,
      pstream.reverse s tt
      = Returned :: drain ++ List.map (fun x => Yield x) (rev l)
      /\ pulled drain = l /\ yields drain = [] /\ raised drain = None).
  { clear s l. intros s l Hs. unfold pstream.reverse, factory.
    destruct (coerce_contents s Hs) as [[-> _]|[-> _]];
      cbn [is_async_stream isinstance_AsyncIterator isinstance_AsyncIterable orb];
      unfold s_reverse, a_reverse, generator, seq_stmt, for_in, async_for_in,
        for_stmt, iter_, aiter_;
      match goal with
      | |- context [for_items ?p (@collect_body _) ?l ?acc] =>
          destruct (@collect_loop _ p l acc) as (tr & E & Hy & Hu & Hr & _);
          [auto with events|]
      end;
      rewrite E; unfold yield_reversed, finish; rewrite app_nil_r;
      exists tr; auto. }
  assert (Y : forall (s : pyobj T) l, contents s = Some l ->
                yields (pstream.reverse s tt) = rev l).
  { intros s0 l0 H0. destruct (G s0 l0 H0) as (drain & -> & _ & Hy & _).
    cbn [yields]. rewrite yields_app, Hy, yields_map_Yield. reflexivity. }
  intros Hs. split; [apply G; exact Hs|]. split; [apply Y; exact Hs|].
  rewrite (Y s l Hs), (Y (PyIterable (rev l)) (rev l) eq_refl).
  apply rev_involutive.
Qed.

Lemma reverse_drains_then_reverses_witness :
  yields (pstream.reverse (PyAsyncIterable [1; 2; 3]%Z) tt) = rev [1; 2; 3]%Z.
Proof.
  apply (@reverse_drains_then_reverses Z (PyAsyncIterable [1; 2; 3]%Z)
           [1; 2; 3]%Z).
  reflexivity.
Defined.

(** ** enumerate *)

Fixpoint enum_from {T} (c : Z) (l : list T) : list (Enumeration T) :=
  match l with
  | [] => []
  | x :: l' => {| index := c; value := x |} :: enum_from (c + 1) l'
  end.

Lemma enum_from_value T c (l : list T) :
  List.map (@value T) (enum_from c l) = l.
Proof.
  revert c. induction l as [|x l IH]; intros c; simpl; [reflexivity|].
  rewrite IH. reflexivity.
Qed.

Lemma enum_from_index T c (l : list T) :
  List.map (@index T) (enum_from c l)
  = List.map (fun i => (c + Z.of_nat i)%Z) (seq 0 (List.length l)).
Proof.
  revert c. induction l as [|x l IH]; intros c; simpl; [reflexivity|].
  rewrite IH, <- seq_shift, map_map. f_equal; [lia|].
  apply map_ext. intros i. lia.
Qed.

Lemma enumerate_loop T pull (l : list T) c :
  pull_event pull ->
  exists tr : trace T (Enumeration T),
    for_items pull (@enumerate_body T) l c
    = (tr, (c + Z.of_nat (List.length l))%Z, [], None)
    /\ yields tr = enum_from c l /\ pulled tr = l /\ raised tr = None.
Proof.
  intros Hp. revert c. induction l as [|x l IH]; intros c.
  - simpl. rewrite Z.add_0_r. eexists; split; [reflexivity|].
    pick_events; repeat split.
  - destruct (IH (c + 1)%Z) as (tr & E & Hy & Hu & Hr).
    cbn [for_items enumerate_body]. rewrite E.
    replace (c + 1 + Z.of_nat (List.length l))%Z
      with (c + Z.of_nat (List.length (x :: l)))%Z by (simpl List.length; lia).
    eexists; split; [reflexivity|].
    pick_events; simpl; rewrite Hy, Hu, Hr; repeat split.
Qed.

(** X12. [enumerate] pairs every element with its position: the values
    are the source in order, the indices are 0, 1, 2, ... with no gap,
    for synchronous and asynchronous sources alike, and each element is
    pulled only when its pair is due. *)
Theorem enumerate_counts_from_zero T (s : pyobj T) (l : list T) :
  contents s = Some l ->
  List.map (@value T) (yields (pstream.enumerate s tt)) = l
  /\ List.map (@index T) (yields (pstream.enumerate s tt))
     = List.map Z.of_nat (seq 0 (List.length l))
  /\ pulled (pstream.enumerate s tt) = l
  /\ raised (pstream.enumerate s tt) = None.
Proof.
  intros Hs.
  assert (H : yields (pstream.enumerate s tt) = enum_from 0 l
              /\ pulled (pstream.enumerate s tt) = l
              /\ raised (pstream.enumerate s tt) = None).
  { unfold pstream.enumerate, factory.
    destruct (coerce_contents s Hs) as [[-> _]|[-> _]];
      cbn [is_async_stream isinstance_AsyncIterator isinstance_AsyncIterable orb];
      unfold s_enumerate, a_enumerate, builtin, generator, for_in, async_for_in,
        for_stmt, iter_, aiter_;
      match goal with
      | |- context [for_items ?p (@enumerate_body _) ?l ?c] =>
          destruct (@enumerate_loop _ p l c) as (tr & E & Hy & Hu & Hr);
          [auto with events|]
      end;
      rewrite E; unfold finish; rewrite app_nil_r; simpl; auto. }
  destruct H as (Hy & Hu & Hr). rewrite Hy.
  split; [apply enum_from_value|]. split; [|split; assumption].
  rewrite enum_from_index. apply map_ext. intros i. lia.
Qed.

Lemma enumerate_counts_from_zero_witness :
  List.map (@value Z) (yields (pstream.enumerate (PyIterable [7; 8]%Z) tt))
  = [7; 8]%Z
  /\ List.map (@index Z) (yields (pstream.enumerate (PyIterable [7; 8]%Z) tt))
     = [0; 1]%Z.
Proof.
  destruct (@enumerate_counts_from_zero Z (PyIterable [7; 8]%Z) [7; 8]%Z eq_refl)
    as (Hv & Hi & _).
  split; [exact Hv | exact Hi].
Defined.

(** ** pool with a positive size *)

Lemma pool_loop_positive T pull (size : Z) (l p : list T) :
  pull_event pull -> (0 < size)%Z -> (Z.of_nat (List.length p) < size)%Z ->
  exists (tr : trace T (list T)) p',
    for_items pull (pool_body size) l p = (tr, p', [], None)
    /\ List.concat (yields tr) ++ p' = p ++ l
    /\ Forall (fun g => Z.of_nat (List.length g) = size) (yields tr)
    /\ (Z.of_nat (List.length p') < size)%Z
    /\ pulled tr = l /\ raised tr = None.
Proof.
  intros Hp Hz. revert p. induction l as [|x l IH]; intros p Hl.
  - do 2 eexists; split; [reflexivity|].
    pick_events; repeat split; simpl; try rewrite app_nil_r; auto.
  - simpl. unfold pool_body at 1.
    destruct (Z.eqb_spec (Z.of_nat (List.length (p ++ [x]))) size) as [E|N].
    + destruct (IH []) as (tr & p' & E' & Hc & Hf & Hl' & Hu & Hr);
        [simpl; lia|].
      rewrite E'. do 2 eexists; split; [reflexivity|].
      pick_events; simpl; rewrite Hu, Hr;
        (split; [rewrite <- !app_assoc; simpl in Hc; rewrite Hc; reflexivity|]);
        (split; [constructor; assumption|]); auto.
    + destruct (IH (p ++ [x])) as (tr & p' & E' & Hc & Hf & Hl' & Hu & Hr).
      { rewrite length_app in *. simpl in *. lia. }
      rewrite E'. do 2 eexists; split; [reflexivity|].
      pick_events; simpl; rewrite Hu, Hr;
        (split; [rewrite Hc, <- app_assoc; reflexivity|]); auto.
Qed.

(** X13. [pool] with a positive size cuts the source into consecutive
    groups: put end to end the groups are the source, every group but
    possibly the last has exactly [size] elements, and the last one, if it
    is shorter, is not empty. *)
Theorem pool_groups T (s : pyobj T) (l : list T) (size : Z) :
  contents s = Some l ->
  (0 < size)%Z ->
  exists full last,
    yields (pstream.pool s size) = full ++ last
    /\ Forall (fun g => Z.of_nat (List.length g) = size) full
    /\ (last = []
        \/ exists g, last = [g] /\ g <> []
                     /\ (Z.of_nat (List.length g) < size)%Z)
    /\ List.concat (yields (pstream.pool s size)) = l
    /\ raised (pstream.pool s size) = None.
Proof.
  intros Hs Hz. unfold pstream.pool, factory.
  destruct (coerce_contents s Hs) as [[-> _]|[-> _]];
    cbn [is_async_stream isinstance_AsyncIterator isinstance_AsyncIterable orb];
    unfold s_pool, a_pool, generator, seq_stmt, for_in, async_for_in,
      for_stmt, iter_, aiter_;
    match goal with
    | |- context [for_items ?p (pool_body ?n) ?l ?q] =>
        destruct (@pool_loop_positive _ p n l q)
          as (tr & p' & E & Hc & Hf & Hl & Hu & Hr);
        [auto with events | assumption | simpl; lia |]
    end;
    rewrite E; unfold pool_rest, finish; rewrite app_nil_r; cbn [yields raised];
    rewrite yields_app, raised_app_none by assumption;
    exists (yields tr);
    (destruct p' as [|y p'];
     [ exists []; simpl in Hc; rewrite app_nil_r in Hc; simpl;
       rewrite !app_nil_r; auto
     | exists [y :: p']; simpl; rewrite concat_app; simpl; rewrite app_nil_r;
       repeat split; auto;
       right; exists (y :: p'); repeat split; auto; discriminate ]).
Qed.

Lemma pool_groups_witness :
  exists full last,
    yields (pstream.pool (PyIterable [1; 2; 3; 4; 5]%Z) 2) = full ++ last
    /\ Forall (fun g => Z.of_nat (List.length g) = 2%Z) full
    /\ (last = []
        \/ exists g, last = [g] /\ g <> []
                     /\ (Z.of_nat (List.length g) < 2)%Z)
    /\ List.concat (yields (pstream.pool (PyIterable [1; 2; 3; 4; 5]%Z) 2))
       = [1; 2; 3; 4; 5]%Z
    /\ raised (pstream.pool (PyIterable [1; 2; 3; 4; 5]%Z) 2) = None.
Proof.
  apply (@pool_groups Z (PyIterable [1; 2; 3; 4; 5]%Z) [1; 2; 3; 4; 5]%Z 2%Z).
  - reflexivity.
  - lia.
Defined.

(** ** take and skip *)

(** X14. [take] never pulls an element it does not yield, whatever the
    count: a source longer than the count keeps its remaining elements.
    With a count of at least the length it yields the whole source.
    [skip] pulls every element of the source. *)
Theorem take_pulls_what_it_yields T (s : pyobj T) (l : list T) (n : Z) :
  contents s = Some l ->
  pulled (pstream.take s n) = yields (pstream.take s n)
  /\ ((Z.of_nat (List.length l) <= n)%Z -> yields (pstream.take s n) = l)
  /\ pulled (pstream.skip s n) = l.
Proof.
  intros Hs.
  destruct (@take_output T s l n Hs) as (Hy & Hu & _).
  destruct (@skip_output T s l n Hs) as (_ & Hk & _).
  rewrite Hy, Hu. repeat split; try assumption.
  intros Hn. apply firstn_all2. unfold range_len. lia.
Qed.

Lemma take_pulls_what_it_yields_witness :
  pulled (pstream.take (PyIterator [1; 2; 3]%Z) 2)
  = yields (pstream.take (PyIterator [1; 2; 3]%Z) 2).
Proof.
  apply (@take_pulls_what_it_yields Z (PyIterator [1; 2; 3]%Z) [1; 2; 3]%Z 2%Z).
  reflexivity.
Defined.

(** ** zip without sources *)

(** X15. [zip] called with no source never leaves its loop: every round
    completes (there is no source to find exhausted) and yields an empty
    tuple, so no amount of fuel ends the run. *)
Theorem zip_no_source_never_ends T (fuel : nat) :
  zip_round 0 (@nil (pyobj T)) [] = ([], Group [], [])
  /\ pstream.zip fuel (@nil (pyobj T)) = None.
Proof.
  split; [reflexivity|].
  unfold pstream.zip, zip_run. simpl coerce_all. cbv beta iota.
  assert (H : zip_loop fuel (@nil (pyobj T)) = None).
  { induction fuel as [|fuel IH]; [reflexivity|]. simpl. rewrite IH. reflexivity. }
  rewrite H. reflexivity.
Qed.

(** ** sort twice *)

Lemma sorted_fixpoint T (lt : T -> T -> option bool) (l : list T) :
  Sorted (not_after lt) l -> sorted lt l = Some l.
Proof.
  induction 1 as [|x l Hs IH Hd]; [reflexivity|].
  simpl. rewrite IH. destruct Hd as [|h t Hh]; [reflexivity|].
  simpl. unfold not_after in Hh. rewrite Hh. reflexivity.
Qed.

(** X16. Sorting is idempotent on mutually comparable Python values:
    [sort] raises nothing, and sorting its output again yields the same
    sequence. *)
Theorem sort_idempotent (s : pyobj pyval) (l : list pyval) :
  contents s = Some l ->
  mutually_comparable py_lt l ->
  raised (pstream.sort py_lt s tt) = None
  /\ yields (pstream.sort py_lt (PyIterable (yields (pstream.sort py_lt s tt))) tt)
     = yields (pstream.sort py_lt s tt).
Proof.
  intros Hs M.
  destruct (@sorted_total pyval py_lt py_comparable_sym l M) as (out & S).
  destruct (@sort_trace pyval py_lt s l Hs) as (pre & _ & Hy & Hr & _ & E).
  rewrite S in E.
  assert (Y : yields (pstream.sort py_lt s tt) = out).
  { rewrite E, yields_app, Hy, yields_map_Yield. reflexivity. }
  split.
  - rewrite E, raised_app_none by assumption. apply raised_map_Yield.
  - rewrite Y.
    destruct (@sort_trace pyval py_lt (PyIterable out) out eq_refl)
      as (pre' & _ & Hy' & _ & _ & E').
    rewrite (sorted_fixpoint (@sorted_sorted pyval py_lt py_lt_asym l out S)) in E'.
    rewrite E', yields_app, Hy', yields_map_Yield. reflexivity.
Qed.

Lemma sort_idempotent_witness :
  let l := [PInt 3; PInt 1; PInt 2] in
  raised (pstream.sort py_lt (PyIterable l) tt) = None
  /\ yields (pstream.sort py_lt
               (PyIterable (yields (pstream.sort py_lt (PyIterable l) tt))) tt)
     = yields (pstream.sort py_lt (PyIterable l) tt).
Proof.
  apply (@sort_idempotent (PyIterable [PInt 3; PInt 1; PInt 2])
           [PInt 3; PInt 1; PInt 2]).
  - reflexivity.
  - repeat constructor; discriminate.
Defined.

(** ** step_by *)










(** X18. Over an asynchronous source a step of [0] is not rejected at the
    call: the generator is returned, and the first demand pulls one
    element and then fails with [ZeroDivisionError] from [c % step]; over
    an empty asynchronous source nothing fails at all. *)
Theorem step_by_zero_async T (s : pyobj T) (l : list T) :
  contents s = Some l ->
  is_async_stream s = true ->
  pstream.step_by s 0
  = match l with
    | [] => [Returned; ANext 0 None]
    | x :: _ => [Returned; ANext 0 (Some x); Raise ZeroDivisionError]
    end.
Proof.
  intros Hs Ha. open_source s Hs; try discriminate Ha;
    match goal with
    | |- context [match ?l with [] => _ | _ => _ end] => destruct l
    end; reflexivity.
Qed.

Lemma step_by_zero_async_witness :
  pstream.step_by (PyAsyncIterable [7; 8]%Z) 0
  = [Returned; ANext 0 (Some 7%Z); Raise ZeroDivisionError].
Proof.
  apply (@step_by_zero_async Z (PyAsyncIterable [7; 8]%Z) [7; 8]%Z);
    reflexivity.
Defined.

Lemma step_by_body_opp T (step : Z) (x : T) (c : Z) :
  step_by_body (- step) x c = step_by_body step x c.
Proof.
  unfold step_by_body.
  destruct (Z.eqb_spec step 0) as [->|N]; [reflexivity|].
  destruct (Z.eqb_spec (- step) 0) as [E|_]; [lia|].
  replace (c mod - step =? 0)%Z with (c mod step =? 0)%Z; [reflexivity|].
  destruct (Z.eqb_spec (c mod step) 0) as [E|M],
           (Z.eqb_spec (c mod - step) 0) as [E'|M']; try reflexivity; exfalso.
  - apply M'. apply Z.mod_opp_r_z; [lia|exact E].
  - apply M. rewrite <- (Z.opp_involutive step).
    apply Z.mod_opp_r_z; [lia|exact E'].
Qed.

Lemma for_items_step_by_opp T pull (step : Z) (l : list T) c :
  for_items pull (step_by_body (- step)) l c
  = for_items pull (step_by_body step) l c.
Proof.
  revert c. induction l as [|x l IH]; intros c; [reflexivity|].
  cbn [for_items]. rewrite step_by_body_opp.
  destruct (step_by_body step x c) as [[ev st'] [| |e]];
    [rewrite IH|..]; reflexivity.
Qed.

(** X19. Over an asynchronous source a negative step is not rejected
    either: as Python's [%] takes the sign of the divisor, [c % step] is
    zero for a negative [step] exactly when it is for [-step], and the run
    is the same as with the positive step.  Over a synchronous source the
    same call fails with [ValueError]. *)
Theorem step_by_negative_async T (s : pyobj T) (l : list T) (n : Z) :
  contents s = Some l ->
  is_async_stream s = true ->
  pstream.step_by s (- n) = pstream.step_by s n
  /\ ((0 < n)%Z -> pstream.step_by (PyIterable l) (- n) = [Raise ValueError]).
Proof.
  intros Hs Ha. split.
  - open_source s Hs; try discriminate Ha;
      unfold pstream.step_by, factory; simpl;
      unfold a_step_by, generator, async_for_in, for_stmt, aiter_;
      rewrite for_items_step_by_opp; reflexivity.
  - intros Hn. unfold pstream.step_by, factory. simpl. unfold s_step_by.
    destruct (Z.ltb_spec (- n) 1); [reflexivity|lia].
Qed.

Lemma step_by_negative_async_witness :
  pstream.step_by (PyAsyncIterator [0; 1; 2; 3]%Z) (- 2)
  = pstream.step_by (PyAsyncIterator [0; 1; 2; 3]%Z) 2.
Proof.
  apply (@step_by_negative_async Z (PyAsyncIterator [0; 1; 2; 3]%Z)
           [0; 1; 2; 3]%Z 2%Z); reflexivity.
Defined.

(** ** flatten and chain *)

Lemma flatten_inner_cursor T (c : pyobj T) (l : list T) :
  cursor c l -> flatten_inner c = (l, None).
Proof.
  intros [-> | ->]; unfold flatten_inner; simpl;
    unfold for_in, async_for_in, for_stmt, iter_, aiter_;
    loop_fact L; destruct L as (tr & E & Hy & _); rewrite E, Hy; reflexivity.
Qed.

Lemma flatten_body_stream T (inner : pyobj T) (l : list T) :
  contents inner = Some l ->
  flatten_body inner tt = (List.map (fun x => Yield x) l, tt, Continue).
Proof.
  intros H. unfold flatten_body.
  destruct (coerce_contents inner H) as [[-> _]|[-> _]];
    rewrite (@flatten_inner_cursor T _ l) by ((left + right); reflexivity);
    reflexivity.
Qed.

Lemma flatten_loop T pull (inners : list (pyobj T)) (ls : list (list T)) :
  pull_event pull ->
  Forall2 (fun s l => contents s = Some l) inners ls ->
  exists tr : trace (pyobj T) T,
    for_items pull (@flatten_body T) inners tt = (tr, tt, [], None)
    /\ yields tr = List.concat ls /\ pulled tr = inners /\ raised tr = None.
Proof.
  intros Hp H. induction H as [|s l inners ls Hs _ (tr & E & Hy & Hu & Hr)].
  - eexists; split; [reflexivity|]. pick_events; repeat split.
  - cbn [for_items]. rewrite (flatten_body_stream s Hs), E.
    eexists; split; [reflexivity|].
    pick_events; cbn [yields pulled raised List.concat];
      rewrite yields_app, pulled_app, raised_app_none,
        yields_map_Yield, pulled_map_Yield, Hy, Hu
        by apply raised_map_Yield;
      repeat split; assumption.
Qed.

Lemma flatten_loop_fails T pull (good : list (pyobj T)) bad rest
    (ls : list (list T)) :
  pull_event pull ->
  Forall2 (fun s l => contents s = Some l) good ls ->
  coerce bad = inl TypeError ->
  exists tr : trace (pyobj T) T,
    for_items pull (@flatten_body T) (good ++ bad :: rest) tt
    = (tr, tt, rest, Some TypeError)
    /\ yields tr = List.concat ls /\ pulled tr = good ++ [bad]
    /\ raised tr = None.
Proof.
  intros Hp H Hb. induction H as [|s l good ls Hs _ (tr & E & Hy & Hu & Hr)].
  - cbn [app for_items]. unfold flatten_body at 1. rewrite Hb.
    eexists; split; [reflexivity|]. pick_events; repeat split.
  - cbn [app for_items]. rewrite (flatten_body_stream s Hs), E.
    eexists; split; [reflexivity|].
    pick_events; cbn [yields pulled raised List.concat app];
      rewrite yields_app, pulled_app, raised_app_none,
        yields_map_Yield, pulled_map_Yield, Hy, Hu
        by apply raised_map_Yield;
      repeat split; assumption.
Qed.

(** X20. [flatten] over a source of streams that all classify yields the
    elements of the first inner stream, then of the second, and so on:
    the concatenation of the inner contents, whatever mix of synchronous
    and asynchronous, container and iterator the inner streams are.  The
    inner streams are pulled from the source one at a time.  [chain] of
    the same streams yields the same sequence. *)
Theorem flatten_concatenates T (outer : pyobj (pyobj T))
    (inners : list (pyobj T)) (ls : list (list T)) :
  contents outer = Some inners ->
  Forall2 (fun s l => contents s = Some l) inners ls ->
  yields (pstream.flatten outer tt) = List.concat ls
  /\ pulled (pstream.flatten outer tt) = inners
  /\ raised (pstream.flatten outer tt) = None
  /\ yields (pstream.chain inners) = List.concat ls.
Proof.
  intros Ho H.
  assert (G : forall outer, contents outer = Some inners ->
     yields (pstream.flatten outer tt) = List.concat ls
     /\ pulled (pstream.flatten outer tt) = inners
     /\ raised (pstream.flatten outer tt) = None).
  { clear outer Ho. intros outer Ho. unfold pstream.flatten, factory.
    destruct (coerce_contents outer Ho) as [[-> _]|[-> _]];
      cbn [is_async_stream isinstance_AsyncIterator isinstance_AsyncIterable orb];
      unfold s_flatten, a_flatten, generator, for_in, async_for_in, for_stmt,
        iter_, aiter_;
      match goal with
      | |- context [for_items ?p (@flatten_body _) _ tt] =>
          destruct (@flatten_loop T p inners ls) as (tr & E & Hy & Hu & Hr);
          [auto with events | assumption |]
      end;
      rewrite E; unfold finish; rewrite app_nil_r; simpl; auto. }
  destruct (G outer Ho) as (Hy & Hu & Hr).
  repeat split; try assumption.
  unfold pstream.chain. cbn [yields].
  apply (G (PyIterable inners) eq_refl).
Qed.

Lemma flatten_concatenates_witness :
  yields (pstream.flatten
            (PyIterable [PyIterable [1; 2]; PyAsyncIterator [3]; PyIterator []]%Z)
            tt)
  = List.concat [[1; 2]; [3]; []]%Z.
Proof.
  apply (@flatten_concatenates Z
           (PyIterable [PyIterable [1; 2]; PyAsyncIterator [3]; PyIterator []]%Z)
           [PyIterable [1; 2]; PyAsyncIterator [3]; PyIterator []]%Z
           [[1; 2]; [3]; []]%Z).
  - reflexivity.
  - repeat constructor.
Defined.

(** X21. An inner value that is no stream makes [flatten] fail with
    [TypeError] only when its turn comes: the elements of the inner
    streams before it have been yielded by then, and the inner streams
    after it are never pulled from the source. *)
Theorem flatten_fails_when_reached T (outer : pyobj (pyobj T))
    (good : list (pyobj T)) (bad : pyobj T) (rest : list (pyobj T))
    (ls : list (list T)) :
  contents outer = Some (good ++ bad :: rest) ->
  Forall2 (fun s l => contents s = Some l) good ls ->
  coerce bad = inl TypeError ->
  yields (pstream.flatten outer tt) = List.concat ls
  /\ pulled (pstream.flatten outer tt) = good ++ [bad]
  /\ raised (pstream.flatten outer tt) = Some TypeError.
Proof.
  intros Ho H Hb. unfold pstream.flatten, factory.
  destruct (coerce_contents outer Ho) as [[-> _]|[-> _]];
    cbn [is_async_stream isinstance_AsyncIterator isinstance_AsyncIterable orb];
    unfold s_flatten, a_flatten, generator, for_in, async_for_in, for_stmt,
      iter_, aiter_;
    match goal with
    | |- context [for_items ?p (@flatten_body _) _ tt] =>
        destruct (@flatten_loop_fails T p good bad rest ls)
          as (tr & E & Hy & Hu & Hr);
        [auto with events | assumption | assumption |]
    end;
    rewrite E; unfold finish; cbn [yields pulled raised];
    rewrite yields_app, pulled_app, raised_app_none, Hy, Hu by assumption;
    simpl; rewrite !app_nil_r; auto.
Qed.

Lemma flatten_fails_when_reached_witness :
  let outer := PyIterable [PyIterable [1; 2]; PyOther; PyIterable [9]]%Z in
  yields (pstream.flatten outer tt) = List.concat [[1; 2]]%Z
  /\ pulled (pstream.flatten outer tt) = [PyIterable [1; 2]%Z] ++ [PyOther]
  /\ raised (pstream.flatten outer tt) = Some TypeError.
Proof.
  apply (@flatten_fails_when_reached Z
           (PyIterable [PyIterable [1; 2]; PyOther; PyIterable [9]]%Z)
           [PyIterable [1; 2]%Z] PyOther [PyIterable [9]%Z] [[1; 2]]%Z).
  - reflexivity.
  - repeat constructor.
  - reflexivity.
Defined.
